(** * wdled: control the LED mode of WD My Passport disks

    A shallow embedding of [wdled.c] and the properties of its mode-page
    protocol logic: the layout of the vendor mode page 0x21, the four-variant
    check, the MODE SELECT parameter list that writes the LED byte back, and
    the control flow of [main] around the sg3_utils calls.

    Conventions.
    - A [uint8_t] is a [Z]; a store into a [uint8_t] lvalue writes [u8 v].
    - [int] is 32 bits and [long] is 64 bits (LP64, the Linux targets of
      sg3_utils); conversions are written out with [to_int].
    - A C string is a [string] without NUL characters.
    - The sg3_utils functions are external: they are the fields of a
      [transport] record.  The four that reach the device (open, inquiry,
      mode sense, mode select) are logged in the trace of the run, together
      with the text written to stderr and stdout; [sg_cmds_version] and
      [safe_strerror] only supply text for a message and show in that text. *)

From Stdlib Require Import ZArith List String Ascii Bool Lia.
From Stdlib Require Numbers.DecimalString Numbers.HexadecimalString.
Import ListNotations.

Local Open Scope Z_scope.

(** ** Constants of the source *)

Definition CMD_NAME : string := "wdled".
Definition CMD_VER : string := "v0.1".
Definition CMD_URL : string := "https://jbit.net/wdled/".
Definition PAGE_CODE : Z := 0x21.
Definition PAGE_MAGIC : Z := 0x30.
Definition PS_BIT : Z := Z.shiftl 1 7.   (* Parameters saveable *)
Definition SPF_BIT : Z := Z.shiftl 1 6.  (* Sub page format *)

(** Store into a [uint8_t]. *)
Definition u8 (v : Z) : Z := v mod 256.

Definition is_u8 (v : Z) : Prop := 0 <= v < 256.

(** ** [struct page] *)

(** The guessed layout of the WD 0x21 mode page, [page.wd21]. *)
Record wd21_t : Type := mk_wd21 {
  magic    : Z;  (* Version? Always 0x30. Not modifiable *)
  zeros0   : Z;
  zeros1   : Z;
  unknown1 : Z;  (* Flags? some bits modifiable *)
  zeros2   : Z;
  zeros3   : Z;
  led      : Z;  (* LED control 0x00=off, 0xff=on, other=Error *)
  zeros4   : Z;
  zeros5   : Z;
  zeros6   : Z
}.

(** [struct page]: two header bytes and the payload union.  The union
    overlays [wd21] on [bytes[32]]: [wd21] is [bytes[0..9]] and [bytes_tail]
    is [bytes[10..31]], which the program only ever moves with [memcpy]. *)
Record page : Type := mk_page {
  code : Z;            (* Page code and PS/SPF bits *)
  len  : Z;            (* Length of parameters in bytes *)
  wd21 : wd21_t;
  bytes_tail : list Z
}.

(** [struct mode_parameter_header]; [hdr_len] is the field [len]. *)
Record mode_parameter_header : Type := mk_header {
  hdr_len : Z;                   (* uint16_t *)
  medium_type : Z;
  flags0 : Z;                    (* WP/DPOFUA bits *)
  flags1 : Z;                    (* LONGLBA bit *)
  reserved : Z;
  block_descriptor_length : Z    (* uint16_t *)
}.

(** The anonymous [struct { header; page; } packet] of [main]. *)
Record packet_t : Type := mk_packet {
  header : mode_parameter_header;
  pkt_page : page
}.

Definition sizeof_wd21 : Z := 10.
Definition sizeof_bytes : Z := 32.
Definition sizeof_page : Z := 2 + sizeof_bytes.
Definition sizeof_header : Z := 8.
Definition sizeof_packet : Z := sizeof_header + sizeof_page.

(** *** Memory images *)

Definition wd21_mem (w : wd21_t) : list Z :=
  [magic w; zeros0 w; zeros1 w; unknown1 w; zeros2 w;
   zeros3 w; led w; zeros4 w; zeros5 w; zeros6 w].

Definition page_mem (p : page) : list Z :=
  code p :: len p :: wd21_mem (wd21 p) ++ bytes_tail p.

(** A [uint16_t] in memory (little endian). *)
Definition u16_mem (v : Z) : list Z := [v mod 256; (v / 256) mod 256].

Definition header_mem (h : mode_parameter_header) : list Z :=
  u16_mem (hdr_len h)
    ++ [medium_type h; flags0 h; flags1 h; reserved h]
    ++ u16_mem (block_descriptor_length h).

Definition packet_mem (k : packet_t) : list Z :=
  header_mem (header k) ++ page_mem (pkt_page k).

(** Byte [i] of a buffer, 0 past its end: a zero-initialised struct
    ([struct page current = {}]) into which the buffer is copied. *)
Definition byte_at (i : nat) (buf : list Z) : Z := nth i buf 0.

Definition wd21_of_mem (buf : list Z) : wd21_t :=
  {| magic := byte_at 0 buf; zeros0 := byte_at 1 buf; zeros1 := byte_at 2 buf;
     unknown1 := byte_at 3 buf; zeros2 := byte_at 4 buf; zeros3 := byte_at 5 buf;
     led := byte_at 6 buf; zeros4 := byte_at 7 buf; zeros5 := byte_at 8 buf;
     zeros6 := byte_at 9 buf |}.

(** The [struct page] view of a buffer: never fails, whatever the bytes. *)
Definition page_of_mem (buf : list Z) : page :=
  {| code := byte_at 0 buf;
     len := byte_at 1 buf;
     wd21 := wd21_of_mem (skipn 2 buf);
     bytes_tail := firstn 22 (skipn 12 buf ++ repeat 0 22%nat) |}.

(** The page of a received parameter list: what follows the header. *)
Definition decode_packet (buf : list Z) : page :=
  page_of_mem (skipn (Z.to_nat sizeof_header) buf).

(** *** Field updates *)

Definition set_code (p : page) (v : Z) : page :=
  {| code := u8 v; len := len p; wd21 := wd21 p; bytes_tail := bytes_tail p |}.

Definition set_wd21_led (w : wd21_t) (v : Z) : wd21_t :=
  {| magic := magic w; zeros0 := zeros0 w; zeros1 := zeros1 w;
     unknown1 := unknown1 w; zeros2 := zeros2 w; zeros3 := zeros3 w;
     led := u8 v; zeros4 := zeros4 w; zeros5 := zeros5 w; zeros6 := zeros6 w |}.

Definition set_led (p : page) (v : Z) : page :=
  {| code := code p; len := len p; wd21 := set_wd21_led (wd21 p) v;
     bytes_tail := bytes_tail p |}.

(** ** Building the mode select parameter list (main, lines 246-256) *)

(** [memset(&packet, 0, sizeof(packet))] *)
Definition zero_header : mode_parameter_header :=
  {| hdr_len := 0; medium_type := 0; flags0 := 0; flags1 := 0; reserved := 0;
     block_descriptor_length := 0 |}.

Definition build_packet (current : page) (new : Z) : packet_t :=
  (* memset(&packet, 0, sizeof(packet));
     memcpy(&packet.page, &current, sizeof(current)); *)
  let pg := current in
  (* packet.page.code &= current.code & 0x7f; *)
  let pg := set_code pg (Z.land (code pg) (Z.land (code current) 0x7f)) in
  (* packet.page.wd21.led = new; *)
  let pg := set_led pg new in
  {| header := zero_header; pkt_page := pg |}.

Definition packet_size : Z := sizeof_header + 2 + sizeof_wd21.

(** The buffer that [sg_ll_mode_select10(fd, pf, sp, &packet, packet_size, ...)]
    is given: the first [packet_size] bytes of [packet]. *)
Definition select_buffer (k : packet_t) : list Z :=
  firstn (Z.to_nat packet_size) (packet_mem k).

(** ** The C library functions that [main] uses *)

Definition nl : string := String (ascii_of_nat 10) EmptyString.

(** [!strcmp(a, b)] *)
Definition streq (a b : string) : bool := String.eqb a b.

(** [!strncmp(a, b, n)] *)
Fixpoint strneq (n : nat) (a b : string) : bool :=
  match n with
  | O => true
  | S n' =>
      match a, b with
      | EmptyString, EmptyString => true
      | String x a', String y b' => Ascii.eqb x y && strneq n' a' b'
      | _, _ => false
      end
  end.

Definition tolower (c : ascii) : ascii :=
  let n := nat_of_ascii c in
  if (65 <=? n)%nat && (n <=? 90)%nat then ascii_of_nat (n + 32) else c.

(** [!strncasecmp(a, b, n)] *)
Fixpoint strncaseeq (n : nat) (a b : string) : bool :=
  match n with
  | O => true
  | S n' =>
      match a, b with
      | EmptyString, EmptyString => true
      | String x a', String y b' =>
          Ascii.eqb (tolower x) (tolower y) && strncaseeq n' a' b'
      | _, _ => false
      end
  end.

(** [s + n] for [n <= strlen(s)] *)
Fixpoint str_advance (n : nat) (s : string) : string :=
  match n, s with
  | S n', String _ s' => str_advance n' s'
  | _, _ => s
  end.

Definition isspace (c : ascii) : bool :=
  let n := nat_of_ascii c in
  (n =? 32)%nat || ((9 <=? n)%nat && (n <=? 13)%nat).

(** Value of a character as a digit in some base up to 36. *)
Definition digit_value (c : ascii) : option Z :=
  let n := nat_of_ascii c in
  if (48 <=? n)%nat && (n <=? 57)%nat then Some (Z.of_nat n - 48)
  else if (97 <=? n)%nat && (n <=? 122)%nat then Some (Z.of_nat n - 87)
  else if (65 <=? n)%nat && (n <=? 90)%nat then Some (Z.of_nat n - 55)
  else None.

Definition digit_in (base : Z) (c : ascii) : option Z :=
  match digit_value c with
  | Some d => if d <? base then Some d else None
  | None => None
  end.

Fixpoint skip_space (s : string) : string :=
  match s with
  | String c s' => if isspace c then skip_space s' else s
  | EmptyString => s
  end.

(** The longest run of digits of [base], accumulated; returns the value and
    the string after the run. *)
Fixpoint strtol_digits (base acc : Z) (s : string) : Z * string :=
  match s with
  | String c s' =>
      match digit_in base c with
      | Some d => strtol_digits base (acc * base + d) s'
      | None => (acc, s)
      end
  | EmptyString => (acc, s)
  end.

Definition long_bits : Z := 64.
Definition int_bits : Z := 32.
Definition LONG_MAX : Z := 2 ^ (long_bits - 1) - 1.
Definition LONG_MIN : Z := - 2 ^ (long_bits - 1).

Definition clamp_long (v : Z) : Z :=
  if v <? LONG_MIN then LONG_MIN else if LONG_MAX <? v then LONG_MAX else v.

(** Conversion of a [long] to [int]: wraps modulo [2 ^ int_bits]. *)
Definition to_int (v : Z) : Z :=
  (v + 2 ^ (int_bits - 1)) mod 2 ^ int_bits - 2 ^ (int_bits - 1).

(** [strtol(nptr, &endptr, 0)]: the value and the string at [endptr].
    White space, an optional sign, then a hexadecimal ([0x]/[0X] before a
    hexadecimal digit), octal (leading [0]) or decimal number.  Without any
    digit the value is 0 and [endptr] is [nptr]. *)
Definition strtol (nptr : string) : Z * string :=
  let s := skip_space nptr in
  let '(neg, s) :=
    match s with
    | String "-" s' => (true, s')
    | String "+" s' => (false, s')
    | _ => (false, s)
    end in
  let '(base, s) :=
    match s with
    | String "0" (String x (String h r)) =>
        match digit_in 16 h with
        | Some _ =>
            if Ascii.eqb x "x" || Ascii.eqb x "X" then (16, String h r) else (8, s)
        | None => (8, s)
        end
    | String "0" _ => (8, s)
    | _ => (10, s)
    end in
  match s with
  | String c _ =>
      match digit_in base c with
      | Some _ =>
          let '(acc, rest) := strtol_digits base 0 s in
          (clamp_long (if neg then - acc else acc), rest)
      | None => (0, nptr)
      end
  | EmptyString => (0, nptr)
  end.

(** [printf] conversions of a non-negative [int]. *)
Definition fmt_d (v : Z) : string :=
  DecimalString.NilEmpty.string_of_int (Z.to_int v).

Definition fmt_02x (v : Z) : string :=
  let s := HexadecimalString.NilEmpty.string_of_uint (N.to_hex_uint (Z.to_N v)) in
  if (String.length s <? 2)%nat then String.append "0" s else s.

(** ** The table of supported devices *)

(* A list of verified working WD product names *)
Definition wd_products : list string :=
  [ "My Passport 259D"; "My Passport 259E"; "My Passport 259F";
    "My Passport 259A"; "My Passport 25E1"; "My Passport 25E2" ]%string.

(** The NULL-terminated arrays are lists; the terminator is the end of the
    list ([nth_error] gives [None] there). *)
Definition supported : list (string * list string) :=
  [ ("WD      "%string, wd_products) ].

Record sg_simple_inquiry_resp : Type := mk_inquiry {
  vendor : string;
  product : string;
  revision : string
}.

(** The inner loop of the lookup: the final value of [pid]. *)
Fixpoint scan_products (products : list string) (name : string) (pid : nat) : nat :=
  match products with
  | [] => pid
  | p :: rest => if streq p name then pid else scan_products rest name (S pid)
  end.

(** The outer loop: the final values of [vid] and [pid]. *)
Fixpoint scan_vendors (tbl : list (string * list string))
    (inquiry : sg_simple_inquiry_resp) (vid : nat) : nat * nat :=
  match tbl with
  | [] => (vid, O)
  | (v, products) :: rest =>
      if streq v (vendor inquiry)
      then (vid, scan_products products (product inquiry) O)
      else scan_vendors rest inquiry (S vid)
  end.

(** ** Runs: the trace of a run and the early [return 1] *)

(** What a run does to the outside: text written to the two streams and the
    four calls that reach the device, with their arguments.  [ModeSelect10]
    records the [param_len] bytes that the call reads at [paramp]. *)
Inductive event : Type :=
| Stderr (text : string)
| Stdout (text : string)
| OpenDevice (device : string) (read_only : bool) (verbose : Z)
| SimpleInquiry (fd : Z) (noisy : bool) (verbose : Z)
| GetModePageControls (fd : Z) (mode6 : bool) (pg_code sub_pg_code : Z)
    (dbd flexible : bool) (mx_mpage_len : Z) (verbose : Z)
| ModeSelect10 (fd : Z) (pf sp : bool) (buf : list Z) (param_len : Z)
    (noisy : bool) (verbose : Z).

Inductive unsupported : Type := UnknownVendor | UnknownProduct.

(** The reason of a [return 1], one per error site of [main]. *)
Inductive error : Type :=
| Usage
| InvalidRequestedValue (arg : string)
| OpenFailed (fd : Z)
| InquiryFailed (result : Z)
| UnsupportedDevice (what : unsupported)
| FetchFailed (result : Z)
| UnexpectedPageId (shown : Z)
| UnexpectedPageLength (shown : Z)
| UnexpectedMagic (shown : Z)
| LedNotChangeable (shown : Z)
| SubmitFailed (result : Z).

(** A computation logs events and either returns early with an error or
    yields a value. *)
Definition M (A : Type) : Type := list event * (error + A).

Definition ret {A : Type} (a : A) : M A := ([], inr a).

Definition bind {A B : Type} (m : M A) (k : A -> M B) : M B :=
  match m with
  | (t, inl e) => (t, inl e)
  | (t, inr a) => let '(t', r) := k a in (t ++ t', r)
  end.

Definition emit (ev : event) : M unit := ([ev], inr tt).

(** [return 1;] at an error site. *)
Definition return_1 {A : Type} (e : error) : M A := ([], inl e).

Declare Scope run_scope.
Delimit Scope run_scope with run.
Notation "x <- c ;; k" := (bind c (fun x => k))
  (at level 100, c at next level, right associativity) : run_scope.
Notation "' p <- c ;; k" := (bind c (fun x => let 'p := x in k))
  (at level 100, p pattern, c at next level, right associativity) : run_scope.
Notation "c ;; k" := (bind c (fun _ => k))
  (at level 100, right associativity) : run_scope.

Definition eprintf (text : string) : M unit := emit (Stderr text).
Definition printf (text : string) : M unit := emit (Stdout text).

(** [if (c) { ... return 1; }] *)
Definition when (c : bool) (m : M unit) : M unit := if c then m else ret tt.

Definition trace_of {A : Type} (m : M A) : list event := fst m.

Definition exit_status (m : M Z) : Z :=
  match snd m with
  | inl _ => 1
  | inr status => status
  end.

(** ** sg3_utils *)

(** The library the program is linked with, and the device behind it. *)
Record transport : Type := mk_transport {
  sg_cmds_version : string;
  safe_strerror : Z -> string;
  sg_cmds_open_device : string -> bool -> Z -> Z;
  sg_simple_inquiry : Z -> bool -> Z -> Z * sg_simple_inquiry_resp;
  sg_get_mode_page_controls :
    Z -> bool -> Z -> Z -> bool -> bool -> Z -> Z -> Z * (page * page * page * page);
  sg_ll_mode_select10 : Z -> bool -> bool -> list Z -> Z -> bool -> Z -> Z
}.

Section Calls.
Variable tr : transport.
Local Open Scope run_scope.

Definition open_device (device : string) (read_only : bool) (verbose : Z) : M Z :=
  emit (OpenDevice device read_only verbose) ;;
  ret (sg_cmds_open_device tr device read_only verbose).

Definition simple_inquiry (fd : Z) (noisy : bool) (verbose : Z)
  : M (Z * sg_simple_inquiry_resp) :=
  emit (SimpleInquiry fd noisy verbose) ;;
  ret (sg_simple_inquiry tr fd noisy verbose).

(** The four out-parameters [arr] are returned with the result. *)
Definition get_mode_page_controls (fd : Z) (mode6 : bool) (pg_code sub_pg_code : Z)
    (dbd flexible : bool) (mx_mpage_len : Z) (verbose : Z)
  : M (Z * (page * page * page * page)) :=
  emit (GetModePageControls fd mode6 pg_code sub_pg_code dbd flexible
          mx_mpage_len verbose) ;;
  ret (sg_get_mode_page_controls tr fd mode6 pg_code sub_pg_code dbd flexible
         mx_mpage_len verbose).

(** [paramp] is the memory at the pointer; the call reads [param_len]
    bytes of it. *)
Definition ll_mode_select10 (fd : Z) (pf sp : bool) (paramp : list Z)
    (param_len : Z) (noisy : bool) (verbose : Z) : M Z :=
  let buf := firstn (Z.to_nat param_len) paramp in
  emit (ModeSelect10 fd pf sp buf param_len noisy verbose) ;;
  ret (sg_ll_mode_select10 tr fd pf sp buf param_len noisy verbose).
End Calls.

(** ** [main] *)

Section Main.
Variable tr : transport.
Local Open Scope run_scope.

(** [argv[i]] *)
Definition argv_at (i : nat) (argv : list string) : string := nth i argv ""%string.

(** The two nested loops of the help text. *)
Fixpoint eprint_products (v : string) (products : list string) : M unit :=
  match products with
  | [] => ret tt
  | p :: rest => eprintf ("  " ++ v ++ " " ++ p ++ nl) ;; eprint_products v rest
  end.

Fixpoint eprint_supported (tbl : list (string * list string)) : M unit :=
  match tbl with
  | [] => ret tt
  | (v, products) :: rest => eprint_products v products ;; eprint_supported rest
  end.

(* Print basic help *)
Definition usage (argv : list string) : M Z :=
  let argv0 := argv_at 0 argv in
  eprintf (CMD_NAME ++ " " ++ CMD_VER ++ " (" ++ CMD_URL
           ++ ") - Control the LED mode of WD My Passport Disks" ++ nl) ;;
  eprintf ("sg_cmds v" ++ sg_cmds_version tr ++ nl) ;;
  eprintf ("Usage: " ++ argv0 ++ " DEVICE [VALUE]" ++ nl) ;;
  eprintf ("  DEVICE: SCSI device to control (e.g /dev/disk/by-id/usb-WD_My_Passport_...)" ++ nl) ;;
  eprintf ("  VALUE:  LED mode to set ('on' or 'off', 0 or 255)" ++ nl) ;;
  eprintf ("          Omit to read current mode" ++ nl) ;;
  eprintf ("          Prefix with 'save:' to have the disk remember the LED mode" ++ nl) ;;
  eprintf nl ;;
  eprintf ("Example: (to turn the LED off permanently)" ++ nl) ;;
  eprintf ("  " ++ argv0 ++ " /dev/disk/by-id/usb-WD_My_Passport_foo save:off" ++ nl) ;;
  eprintf nl ;;
  eprintf ("Supported devices:" ++ nl) ;;
  eprint_supported supported ;;
  return_1 Usage.

(* Process argument: the final values of [force], [save] and [new] *)
Definition process_argument (argv : list string) : M (bool * bool * Z) :=
  let argc := Z.of_nat (List.length argv) in
  let force := false in
  let save := false in
  let new := -1 in
  if 2 <? argc then
    let arg := argv_at 2 argv in
    if streq arg "FORCEGET" then
      (* Get value, with no vendor/product checks *)
      ret (true, save, new)
    else
      let force_str := "FORCESET:"%string in
      let '(arg, force) :=
        if strneq (String.length force_str) arg force_str
        then (str_advance (String.length force_str) arg, true)
        else (arg, force) in
      let save_str := "save:"%string in
      let '(arg, save) :=
        if strncaseeq (String.length save_str) arg save_str
        then (str_advance (String.length save_str) arg, true)
        else (arg, save) in
      if streq arg "off" then ret (force, save, 0)
      else if streq arg "on" then ret (force, save, 255)
      else
        let '(v, endptr) := strtol arg in
        let new := to_int v in
        (* endptr != (arg + strlen(arg)) || new < 0x00 || new > 0xff *)
        if negb (streq endptr "") || (new <? 0x00) || (0xff <? new) then
          eprintf ("Unknown value: " ++ arg ++ nl) ;;
          return_1 (InvalidRequestedValue arg)
        else ret (force, save, new)
  else ret (force, save, new).

(* Verify that we know about the disk model *)
Definition check_supported (device : string) (force : bool)
    (inquiry : sg_simple_inquiry_resp) : M unit :=
  let '(vid, pid) := scan_vendors supported inquiry O in
  match nth_error supported vid with
  | None =>
      if negb force then
        eprintf (device ++ ": ERROR: Unknown or unsupported vendor!" ++ nl) ;;
        return_1 (UnsupportedDevice UnknownVendor)
      else eprintf ("MANUALLY SKIPPED UNSUPPORTED VENDOR CHECK!" ++ nl)
  | Some (_, products) =>
      match nth_error products pid with
      | None =>
          if negb force then
            eprintf (device ++ ": ERROR: Unknown or unsupported product!" ++ nl) ;;
            return_1 (UnsupportedDevice UnknownProduct)
          else eprintf ("MANUALLY SKIPPED UNSUPPORTED DEVICE CHECK!" ++ nl)
      | Some _ => ret tt
      end
  end.

(* Verify details about the modepage *)
Definition verify_modepage (device : string)
    (current changeable original saved : page) : M unit :=
  let code' := u8 (Z.lor PAGE_CODE PS_BIT) in
  when (negb (code current =? code') || negb (code changeable =? code')
        || negb (code original =? code') || negb (code saved =? code'))
    (eprintf (device ++ ": ERROR: Unexpected mode page id (0x"
              ++ fmt_02x (code current) ++ ")" ++ nl) ;;
     return_1 (UnexpectedPageId (code current))) ;;
  let wd21_len := u8 sizeof_wd21 in
  when (negb (len current =? wd21_len) || negb (len changeable =? wd21_len)
        || negb (len original =? wd21_len) || negb (len saved =? wd21_len))
    (eprintf (device ++ ": ERROR: Unexpected mode page length (0x"
              ++ fmt_02x (len current) ++ ")" ++ nl) ;;
     return_1 (UnexpectedPageLength (len current))) ;;
  when (negb (magic (wd21 current) =? PAGE_MAGIC))
    (eprintf (device ++ ": ERROR: Unexpected mode page magic (0x"
              ++ fmt_02x (magic (wd21 current)) ++ ")" ++ nl) ;;
     return_1 (UnexpectedMagic (magic (wd21 current)))) ;;
  when (negb (led (wd21 changeable) =? 0xff))
    (eprintf (device ++ ": ERROR: LED bits don't appear changeable (0x"
              ++ fmt_02x (led (wd21 changeable)) ++ ")" ++ nl) ;;
     return_1 (LedNotChangeable (led (wd21 changeable)))).

(* Build a mode select parameter list payload and send it *)
Definition write_back (device : string) (fd : Z) (save : bool) (new : Z)
    (current : page) : M unit :=
  let packet := build_packet current new in
  let page_format := true in
  let noisy := true in
  let verbose := 0 in
  result <- ll_mode_select10 tr fd page_format save (packet_mem packet)
              packet_size noisy verbose ;;
  when (negb (result =? 0))
    (eprintf (device ++ ": ERROR: Set mode page failed ("
              ++ safe_strerror tr result ++ ")" ++ nl) ;;
     return_1 (SubmitFailed result)).

Definition main (argv : list string) : M Z :=
  let argc := Z.of_nat (List.length argv) in
  if (argc <? 2) || (3 <? argc) || streq (argv_at 1 argv) "--help"
     || streq (argv_at 1 argv) "-help" || streq (argv_at 1 argv) "-h"
  then usage argv
  else
    ' (force, save, new) <- process_argument argv ;;
    when force
      (eprintf ("WARNING: Skipping supported vendor/product checks!" ++ nl)) ;;
    let device := argv_at 1 argv in
    let read_only := new <? 0 in
    let verbose := 0 in
    let noisy := true in
    fd <- open_device tr device read_only verbose ;;
    when (fd <? 0)
      (eprintf (device ++ ": ERROR: Failed to open ("
                ++ safe_strerror tr (- fd) ++ ")" ++ nl) ;;
       return_1 (OpenFailed fd)) ;;
    ' (result, inquiry) <- simple_inquiry tr fd noisy verbose ;;
    when (negb (result =? 0))
      (eprintf (device ++ ": ERROR: Inquiry failed ("
                ++ safe_strerror tr result ++ ")" ++ nl) ;;
       return_1 (InquiryFailed result)) ;;
    eprintf (device ++ ": " ++ vendor inquiry ++ " " ++ product inquiry
             ++ " (rev " ++ revision inquiry ++ ")" ++ nl) ;;
    check_supported device force inquiry ;;
    (* Read the mode page we're interested in *)
    let page_len := sizeof_page in
    ' (result, (current, changeable, original, saved)) <-
      get_mode_page_controls tr fd false PAGE_CODE 0 true false page_len verbose ;;
    when (negb (result =? 0))
      (eprintf (device ++ ": ERROR: Get mode page failed ("
                ++ safe_strerror tr result ++ ")" ++ nl) ;;
       return_1 (FetchFailed result)) ;;
    verify_modepage device current changeable original saved ;;
    (* Print the LED values! *)
    printf ("LED: current=" ++ fmt_d (led (wd21 current))
            ++ " original=" ++ fmt_d (led (wd21 original))
            ++ " saved=" ++ fmt_d (led (wd21 saved)) ++ nl) ;;
    when (0 <=? new) (write_back device fd save new current) ;;
    ret 0.
End Main.

(** ** Observations on a run *)

Definition is_call (ev : event) : bool :=
  match ev with
  | Stderr _ | Stdout _ => false
  | _ => true
  end.

Definition is_submit (ev : event) : bool :=
  match ev with
  | ModeSelect10 _ _ _ _ _ _ _ => true
  | _ => false
  end.

(** The device calls (open, inquiry, mode sense, mode select), in order. *)
Definition calls (t : list event) : list event := filter is_call t.

(** The lines written to stdout, in order. *)
Fixpoint stdout_of (t : list event) : list string :=
  match t with
  | [] => []
  | Stdout s :: rest => s :: stdout_of rest
  | _ :: rest => stdout_of rest
  end.

(** The run of [main] on [argv] fetched the mode page, and the library
    answered [result] with the four variants [set]. *)
Definition fetched (tr : transport) (argv : list string) (result : Z)
    (set : page * page * page * page) : Prop :=
  exists fd mode6 pg_code sub_pg_code dbd flexible mx_mpage_len verbose,
    In (GetModePageControls fd mode6 pg_code sub_pg_code dbd flexible
          mx_mpage_len verbose) (trace_of (main tr argv))
    /\ sg_get_mode_page_controls tr fd mode6 pg_code sub_pg_code dbd flexible
         mx_mpage_len verbose = (result, set).

(** The first test of [main]: the help text is asked for, or the number of
    arguments is wrong. *)
Definition wants_usage (argv : list string) : bool :=
  let argc := Z.of_nat (List.length argv) in
  (argc <? 2) || (3 <? argc) || streq (argv_at 1 argv) "--help"
  || streq (argv_at 1 argv) "-help" || streq (argv_at 1 argv) "-h".

(** No LED value on the command line: no second argument, or [FORCEGET]. *)
Definition no_value_requested (argv : list string) : bool :=
  negb (2 <? Z.of_nat (List.length argv)) || streq (argv_at 2 argv) "FORCEGET".

(** The second argument carries the override token. *)
Definition force_requested (argv : list string) : bool :=
  (2 <? Z.of_nat (List.length argv))
  && (streq (argv_at 2 argv) "FORCEGET"
      || strneq (String.length "FORCESET:") (argv_at 2 argv) "FORCESET:").

(** [s] occurs in [text]. *)
Fixpoint str_contains (s text : string) : bool :=
  prefix s text
  || match text with
     | EmptyString => false
     | String _ rest => str_contains s rest
     end.

(** The texts of the lines that [main] writes on its way to the write. *)
Definition force_warning : string :=
  String.append "WARNING: Skipping supported vendor/product checks!" nl.

Definition identity_line (device : string) (inquiry : sg_simple_inquiry_resp) : string :=
  (device ++ ": " ++ vendor inquiry ++ " " ++ product inquiry
   ++ " (rev " ++ revision inquiry ++ ")" ++ nl)%string.

Definition report_line (current original saved : page) : string :=
  ("LED: current=" ++ fmt_d (led (wd21 current))
   ++ " original=" ++ fmt_d (led (wd21 original))
   ++ " saved=" ++ fmt_d (led (wd21 saved)) ++ nl)%string.

(** The report line in the words of the specification's scenario:
    [current=<n> default=<n> saved=<n>]. *)
Definition spec_report_line (current default saved : Z) : string :=
  ("current=" ++ fmt_d current ++ " default=" ++ fmt_d default
   ++ " saved=" ++ fmt_d saved)%string.

(** The page identifier rule in the words of the specification: the low
    seven bits are the page identifier and the saveable bit is set. *)
Definition spec_code_ok (c : Z) : bool :=
  (Z.land c 0x7f =? PAGE_CODE) && Z.testbit c 7.

(** The four rules of the check of the mode page, on the four variants
    current, changeable, original and saved. *)
Definition rule_page_id (c g o s : page) : bool :=
  forallb (fun p => code p =? 0xa1) [c; g; o; s].

Definition rule_length (c g o s : page) : bool :=
  forallb (fun p => len p =? 10) [c; g; o; s].

Definition rule_magic (c : page) : bool := magic (wd21 c) =? 0x30.

Definition rule_led (g : page) : bool := led (wd21 g) =? 0xff.

(** The identity check as the two loops decide it: the vendor is in the
    table and the product is in that vendor's list. *)
Definition supported_device (inquiry : sg_simple_inquiry_resp) : bool :=
  let '(vid, pid) := scan_vendors supported inquiry O in
  match nth_error supported vid with
  | None => false
  | Some (_, products) =>
      match nth_error products pid with
      | None => false
      | Some _ => true
      end
  end.

(** The lines that replace the identity error under the override. *)
Definition skip_warning (text : string) : bool :=
  prefix "MANUALLY SKIPPED UNSUPPORTED" text.

(** ** Sample devices *)

Definition sample_page (c n m l : Z) : page :=
  mk_page c n (mk_wd21 m 0 0 0 0 0 l 0 0 0) (repeat 0 22%nat).

Definition passport : sg_simple_inquiry_resp :=
  mk_inquiry "WD      " "My Passport 259F" "1012".

Definition unknown_disk : sg_simple_inquiry_resp :=
  mk_inquiry "Generic " "Flash Disk" "8.07".

(** A device that opens as descriptor 3, answers the inquiry with
    [inquiry], the mode sense with [set], and accepts every mode select. *)
Definition device_of (inquiry : sg_simple_inquiry_resp)
    (set : page * page * page * page) : transport :=
  {| sg_cmds_version := "1.46";
     safe_strerror := fun _ => "Input/output error"%string;
     sg_cmds_open_device := fun _ _ _ => 3;
     sg_simple_inquiry := fun _ _ _ => (0, inquiry);
     sg_get_mode_page_controls := fun _ _ _ _ _ _ _ _ => (0, set);
     sg_ll_mode_select10 := fun _ _ _ _ _ _ _ => 0 |}.

(** LED at 10, factory value 0, saved value 10, every LED bit changeable. *)
Definition good_set : page * page * page * page :=
  (sample_page 0xa1 10 0x30 10, sample_page 0xa1 10 0 0xff,
   sample_page 0xa1 10 0x30 0, sample_page 0xa1 10 0x30 10).



(** Valid but for the magic byte of the current variant. *)
Definition bad_magic_set : page * page * page * page :=
  (sample_page 0xa1 10 0x31 10, sample_page 0xa1 10 0 0xff,
   sample_page 0xa1 10 0x30 0, sample_page 0xa1 10 0x30 10).

Definition sample_current : page :=
  mk_page 0xa1 10 (mk_wd21 0x30 0 0 2 0 0 0xff 0 0 0) (repeat 0 22%nat).

(** A device whose open, inquiry, mode sense and mode select return the
    given results. *)
Definition device_answering (fd r_inquiry r_sense r_select : Z)
    (inquiry : sg_simple_inquiry_resp)
    (set : page * page * page * page) : transport :=
  {| sg_cmds_version := "1.46";
     safe_strerror := fun _ => "Input/output error"%string;
     sg_cmds_open_device := fun _ _ _ => fd;
     sg_simple_inquiry := fun _ _ _ => (r_inquiry, inquiry);
     sg_get_mode_page_controls := fun _ _ _ _ _ _ _ _ => (r_sense, set);
     sg_ll_mode_select10 := fun _ _ _ _ _ _ _ => r_select |}.

(** The traces of the successive stages of a run. *)
Definition opened (device : string) (force : bool) (new : Z) : list event :=
  (if force then [Stderr force_warning] else [])
  ++ [OpenDevice device (new <? 0) 0].

Definition identified (device : string) (force : bool) (new fd : Z)
    (inquiry : sg_simple_inquiry_resp) : list event :=
  opened device force new
  ++ [SimpleInquiry fd true 0; Stderr (identity_line device inquiry)]
  ++ fst (check_supported device force inquiry).

Definition fetching (device : string) (force : bool) (new fd : Z)
    (inquiry : sg_simple_inquiry_resp) : list event :=
  identified device force new fd inquiry
  ++ [GetModePageControls fd false PAGE_CODE 0 true false sizeof_page 0].

Definition submit (fd : Z) (save : bool) (new : Z) (current : page) : event :=
  ModeSelect10 fd true save (select_buffer (build_packet current new))
    packet_size true 0.

(** The ten ways through [main], one per [return], with the trace and the
    outcome of each. *)
Inductive main_run (tr : transport) (argv : list string) : M Z -> Prop :=
| Run_usage :
    wants_usage argv = true ->
    main_run tr argv (usage tr argv)
| Run_bad_value t e :
    wants_usage argv = false ->
    process_argument argv = (t, inl e) ->
    main_run tr argv (t, inl e)
| Run_open_failed force save new fd msg :
    wants_usage argv = false ->
    process_argument argv = ([], inr (force, save, new)) ->
    fd = sg_cmds_open_device tr (argv_at 1 argv) (new <? 0) 0 ->
    fd < 0 ->
    main_run tr argv
      (opened (argv_at 1 argv) force new ++ [Stderr msg], inl (OpenFailed fd))
| Run_inquiry_failed force save new fd result inquiry msg :
    wants_usage argv = false ->
    process_argument argv = ([], inr (force, save, new)) ->
    fd = sg_cmds_open_device tr (argv_at 1 argv) (new <? 0) 0 ->
    0 <= fd ->
    sg_simple_inquiry tr fd true 0 = (result, inquiry) ->
    result <> 0 ->
    main_run tr argv
      (opened (argv_at 1 argv) force new
       ++ [SimpleInquiry fd true 0; Stderr msg], inl (InquiryFailed result))
| Run_unsupported force save new fd inquiry e :
    wants_usage argv = false ->
    process_argument argv = ([], inr (force, save, new)) ->
    fd = sg_cmds_open_device tr (argv_at 1 argv) (new <? 0) 0 ->
    0 <= fd ->
    sg_simple_inquiry tr fd true 0 = (0, inquiry) ->
    snd (check_supported (argv_at 1 argv) force inquiry) = inl e ->
    main_run tr argv (identified (argv_at 1 argv) force new fd inquiry, inl e)
| Run_fetch_failed force save new fd inquiry result set msg :
    wants_usage argv = false ->
    process_argument argv = ([], inr (force, save, new)) ->
    fd = sg_cmds_open_device tr (argv_at 1 argv) (new <? 0) 0 ->
    0 <= fd ->
    sg_simple_inquiry tr fd true 0 = (0, inquiry) ->
    snd (check_supported (argv_at 1 argv) force inquiry) = inr tt ->
    sg_get_mode_page_controls tr fd false PAGE_CODE 0 true false sizeof_page 0
      = (result, set) ->
    result <> 0 ->
    main_run tr argv
      (fetching (argv_at 1 argv) force new fd inquiry ++ [Stderr msg],
       inl (FetchFailed result))
| Run_invalid_page force save new fd inquiry current changeable original saved t e :
    wants_usage argv = false ->
    process_argument argv = ([], inr (force, save, new)) ->
    fd = sg_cmds_open_device tr (argv_at 1 argv) (new <? 0) 0 ->
    0 <= fd ->
    sg_simple_inquiry tr fd true 0 = (0, inquiry) ->
    snd (check_supported (argv_at 1 argv) force inquiry) = inr tt ->
    sg_get_mode_page_controls tr fd false PAGE_CODE 0 true false sizeof_page 0
      = (0, (current, changeable, original, saved)) ->
    verify_modepage (argv_at 1 argv) current changeable original saved
      = (t, inl e) ->
    main_run tr argv (fetching (argv_at 1 argv) force new fd inquiry ++ t, inl e)
| Run_read_only force save new fd inquiry current changeable original saved :
    wants_usage argv = false ->
    process_argument argv = ([], inr (force, save, new)) ->
    fd = sg_cmds_open_device tr (argv_at 1 argv) (new <? 0) 0 ->
    0 <= fd ->
    sg_simple_inquiry tr fd true 0 = (0, inquiry) ->
    snd (check_supported (argv_at 1 argv) force inquiry) = inr tt ->
    sg_get_mode_page_controls tr fd false PAGE_CODE 0 true false sizeof_page 0
      = (0, (current, changeable, original, saved)) ->
    verify_modepage (argv_at 1 argv) current changeable original saved
      = ([], inr tt) ->
    new < 0 ->
    main_run tr argv
      (fetching (argv_at 1 argv) force new fd inquiry
       ++ [Stdout (report_line current original saved)], inr 0)
| Run_submit_failed force save new fd inquiry current changeable original saved
    result msg :
    wants_usage argv = false ->
    process_argument argv = ([], inr (force, save, new)) ->
    fd = sg_cmds_open_device tr (argv_at 1 argv) (new <? 0) 0 ->
    0 <= fd ->
    sg_simple_inquiry tr fd true 0 = (0, inquiry) ->
    snd (check_supported (argv_at 1 argv) force inquiry) = inr tt ->
    sg_get_mode_page_controls tr fd false PAGE_CODE 0 true false sizeof_page 0
      = (0, (current, changeable, original, saved)) ->
    verify_modepage (argv_at 1 argv) current changeable original saved
      = ([], inr tt) ->
    0 <= new ->
    result = sg_ll_mode_select10 tr fd true save
               (select_buffer (build_packet current new)) packet_size true 0 ->
    result <> 0 ->
    main_run tr argv
      (fetching (argv_at 1 argv) force new fd inquiry
       ++ [Stdout (report_line current original saved);
           submit fd save new current; Stderr msg],
       inl (SubmitFailed result))
| Run_written force save new fd inquiry current changeable original saved :
    wants_usage argv = false ->
    process_argument argv = ([], inr (force, save, new)) ->
    fd = sg_cmds_open_device tr (argv_at 1 argv) (new <? 0) 0 ->
    0 <= fd ->
    sg_simple_inquiry tr fd true 0 = (0, inquiry) ->
    snd (check_supported (argv_at 1 argv) force inquiry) = inr tt ->
    sg_get_mode_page_controls tr fd false PAGE_CODE 0 true false sizeof_page 0
      = (0, (current, changeable, original, saved)) ->
    verify_modepage (argv_at 1 argv) current changeable original saved
      = ([], inr tt) ->
    0 <= new ->
    sg_ll_mode_select10 tr fd true save
      (select_buffer (build_packet current new)) packet_size true 0 = 0 ->
    main_run tr argv
      (fetching (argv_at 1 argv) force new fd inquiry
       ++ [Stdout (report_line current original saved);
           submit fd save new current],
       inr 0).

(** * Properties *)

(** ** The stages of [main] *)

Lemma calls_app (a b : list event) : calls (a ++ b) = calls a ++ calls b.
Proof. unfold calls. apply filter_app. Qed.

Lemma in_calls (ev : event) (t : list event) :
  In ev t -> is_call ev = true -> In ev (calls t).
Proof. intros Hin Hc. unfold calls. apply filter_In. split; assumption. Qed.

Lemma stdout_of_app (a b : list event) :
  stdout_of (a ++ b) = stdout_of a ++ stdout_of b.
Proof.
  induction a as [|ev a IH]; simpl; [reflexivity|].
  destruct ev; simpl; rewrite IH; reflexivity.
Qed.

(** A successful parse of the argument writes nothing. *)
Lemma process_argument_quiet (argv : list string) (t : list event)
    (r : bool * bool * Z) :
  process_argument argv = (t, inr r) -> t = [].
Proof.
  unfold process_argument.
  repeat match goal with
         | |- context [if ?c then _ else _] => destruct c
         | |- context [let '(_, _) := ?p in _] => destruct p
         end;
    cbn; intros H; inversion H; reflexivity.
Qed.

(** A failed parse writes one line to stderr and reports the value. *)
Lemma process_argument_error (argv : list string) (t : list event) (e : error) :
  process_argument argv = (t, inl e) ->
  exists arg, e = InvalidRequestedValue arg
              /\ t = [Stderr ("Unknown value: " ++ arg ++ nl)].
Proof.
  unfold process_argument.
  repeat match goal with
         | |- context [if ?c then _ else _] => destruct c
         | |- context [let '(_, _) := ?p in _] => destruct p
         end;
    cbn; intros H; inversion H; eexists; split; reflexivity.
Qed.

Lemma check_supported_calls (device : string) (force : bool)
    (inquiry : sg_simple_inquiry_resp) :
  calls (fst (check_supported device force inquiry)) = []
  /\ stdout_of (fst (check_supported device force inquiry)) = [].
Proof.
  unfold check_supported.
  destruct (scan_vendors supported inquiry 0) as [vid pid].
  destruct (nth_error supported vid) as [[v products]|];
    [destruct (nth_error products pid)|]; destruct force; cbn; auto.
Qed.

(** Only without the override can the identity check stop the run. *)
Lemma check_supported_error (device : string) (force : bool)
    (inquiry : sg_simple_inquiry_resp) (e : error) :
  snd (check_supported device force inquiry) = inl e ->
  force = false /\ exists what, e = UnsupportedDevice what.
Proof.
  unfold check_supported.
  destruct (scan_vendors supported inquiry 0) as [vid pid].
  destruct (nth_error supported vid) as [[v products]|];
    [destruct (nth_error products pid)|]; destruct force; cbn;
    intros H; inversion H; split; eauto.
Qed.

Lemma check_supported_force (device : string) (inquiry : sg_simple_inquiry_resp) :
  snd (check_supported device true inquiry) = inr tt.
Proof.
  destruct (snd (check_supported device true inquiry)) as [e|[]] eqn:H;
    [|reflexivity].
  apply check_supported_error in H. destruct H as [H _]. discriminate H.
Qed.

(** The check stops at the first rule that fails, in the order page
    identifier, length, magic, LED mask. *)
Lemma verify_modepage_outcome (device : string) (c g o s : page) :
  snd (verify_modepage device c g o s) =
    if negb (rule_page_id c g o s) then inl (UnexpectedPageId (code c))
    else if negb (rule_length c g o s) then inl (UnexpectedPageLength (len c))
    else if negb (rule_magic c) then inl (UnexpectedMagic (magic (wd21 c)))
    else if negb (rule_led g) then inl (LedNotChangeable (led (wd21 g)))
    else inr tt.
Proof.
  unfold verify_modepage, rule_page_id, rule_length, rule_magic, rule_led.
  change (u8 (Z.lor PAGE_CODE PS_BIT)) with 0xa1.
  change (u8 sizeof_wd21) with 10.
  change PAGE_MAGIC with 0x30.
  cbn [forallb].
  destruct (code c =? 0xa1), (code g =? 0xa1), (code o =? 0xa1),
    (code s =? 0xa1); cbn; try reflexivity.
  destruct (len c =? 10), (len g =? 10), (len o =? 10), (len s =? 10);
    cbn; try reflexivity.
  destruct (magic (wd21 c) =? 0x30); cbn; try reflexivity.
  destruct (led (wd21 g) =? 0xff); cbn; reflexivity.
Qed.

(** A check that passes writes nothing; one that fails writes one line. *)
Lemma verify_modepage_trace (device : string) (c g o s : page) :
  match snd (verify_modepage device c g o s) with
  | inr _ => fst (verify_modepage device c g o s) = []
  | inl _ => exists msg, fst (verify_modepage device c g o s) = [Stderr msg]
  end.
Proof.
  unfold verify_modepage.
  change (u8 (Z.lor PAGE_CODE PS_BIT)) with 0xa1.
  change (u8 sizeof_wd21) with 10.
  destruct (code c =? 0xa1), (code g =? 0xa1), (code o =? 0xa1),
    (code s =? 0xa1); cbn; eauto.
  destruct (len c =? 10), (len g =? 10), (len o =? 10), (len s =? 10);
    cbn; eauto.
  destruct (magic (wd21 c) =? PAGE_MAGIC); cbn; eauto.
  destruct (led (wd21 g) =? 0xff); cbn; eauto.
Qed.

Lemma verify_modepage_calls (device : string) (c g o s : page) :
  calls (fst (verify_modepage device c g o s)) = []
  /\ stdout_of (fst (verify_modepage device c g o s)) = [].
Proof.
  pose proof (verify_modepage_trace device c g o s) as H.
  destruct (snd (verify_modepage device c g o s)).
  - destruct H as [msg ->]. split; reflexivity.
  - rewrite H. split; reflexivity.
Qed.

(** ** Every run of [main] is one of the ten ways through it *)

Lemma main_run_eq (tr : transport) (argv : list string) (m m' : M Z) :
  m = m' -> main_run tr argv m' -> main_run tr argv m.
Proof. intros ->. exact (fun H => H). Qed.

(** One step of a run: the binds, the calls and the tests of [main]. *)
Ltac run_red :=
  lazy beta iota zeta delta
    [bind ret emit when eprintf printf return_1 open_device simple_inquiry
     get_mode_page_controls ll_mode_select10 write_back negb fst snd].

Ltac run_with H := rewrite H; run_red.

(** Both sides are the same list of events once re-associated. *)
Ltac run_trace :=
  unfold fetching, identified, opened, submit, select_buffer, identity_line,
    report_line, force_warning;
  repeat match goal with
         | H : check_supported _ _ _ = _ |- _ => rewrite H
         end;
  repeat rewrite <- app_assoc; reflexivity.

Lemma main_run_complete (tr : transport) (argv : list string) :
  main_run tr argv (main tr argv).
Proof.
  unfold main.
  change (_ || _ || streq (argv_at 1 argv) "-h") with (wants_usage argv).
  destruct (wants_usage argv) eqn:Hu; [apply Run_usage; assumption|].
  destruct (process_argument argv) as [t0 [e|[[force save] new]]] eqn:Hpa;
    [apply Run_bad_value; assumption|].
  pose proof (process_argument_quiet _ _ _ Hpa); subst t0.
  run_red.
  destruct (sg_cmds_open_device tr (argv_at 1 argv) (new <? 0) 0 <? 0) eqn:Hfd.
  { eapply main_run_eq; [|eapply Run_open_failed; eauto using Z.ltb_lt].
    - destruct force; run_red; run_trace.
    - apply Z.ltb_lt; assumption. }
  destruct (sg_simple_inquiry tr
              (sg_cmds_open_device tr (argv_at 1 argv) (new <? 0) 0) true 0)
    as [result inquiry] eqn:Hinq.
  run_red.
  destruct (result =? 0) eqn:Hres.
  2:{ eapply main_run_eq; [|eapply Run_inquiry_failed; eauto].
      - destruct force; run_red; run_trace.
      - apply Z.ltb_ge; assumption.
      - apply Z.eqb_neq; assumption. }
  apply Z.eqb_eq in Hres; subst result.
  destruct (check_supported (argv_at 1 argv) force inquiry)
    as [tc [e|[]]] eqn:Hcs.
  { eapply main_run_eq; [|eapply Run_unsupported; eauto].
    - destruct force; run_red; run_trace.
    - apply Z.ltb_ge; assumption.
    - rewrite Hcs; reflexivity. }
  run_red.
  destruct (sg_get_mode_page_controls tr
              (sg_cmds_open_device tr (argv_at 1 argv) (new <? 0) 0)
              false PAGE_CODE 0 true false sizeof_page 0)
    as [result [[[c g] o] s]] eqn:Hget.
  run_red.
  destruct (result =? 0) eqn:Hres.
  2:{ eapply main_run_eq; [|eapply Run_fetch_failed; eauto].
      - destruct force; run_red; run_trace.
      - apply Z.ltb_ge; assumption.
      - rewrite Hcs; reflexivity.
      - apply Z.eqb_neq; assumption. }
  apply Z.eqb_eq in Hres; subst result.
  pose proof (verify_modepage_trace (argv_at 1 argv) c g o s) as Hvt.
  destruct (verify_modepage (argv_at 1 argv) c g o s)
    as [tv [e|[]]] eqn:Hv; cbn [fst snd] in Hvt.
  { eapply main_run_eq; [|eapply Run_invalid_page; eauto].
    - destruct force; run_red; run_trace.
    - apply Z.ltb_ge; assumption.
    - rewrite Hcs; reflexivity. }
  subst tv. run_red.
  destruct (0 <=? new) eqn:Hnew.
  2:{ eapply main_run_eq; [|eapply Run_read_only; eauto].
      - destruct force; run_red; run_trace.
      - apply Z.ltb_ge; assumption.
      - rewrite Hcs; reflexivity.
      - apply Z.leb_gt; assumption. }
  change (firstn (Z.to_nat packet_size) (packet_mem (build_packet c new)))
    with (select_buffer (build_packet c new)).
  destruct (sg_ll_mode_select10 tr
              (sg_cmds_open_device tr (argv_at 1 argv) (new <? 0) 0) true save
              (select_buffer (build_packet c new)) packet_size true 0 =? 0)
    eqn:Hsel.
  - eapply main_run_eq; [|eapply Run_written; eauto].
    + destruct force; run_red; run_trace.
    + apply Z.ltb_ge; assumption.
    + rewrite Hcs; reflexivity.
    + apply Z.leb_le; assumption.
    + apply Z.eqb_eq; assumption.
  - eapply main_run_eq; [|eapply Run_submit_failed; eauto].
    + destruct force; run_red; run_trace.
    + apply Z.ltb_ge; assumption.
    + rewrite Hcs; reflexivity.
    + apply Z.leb_le; assumption.
    + apply Z.eqb_neq; assumption.
Qed.

(** ** The calls and the output of each stage *)

Lemma calls_opened (device : string) (force : bool) (new : Z) :
  calls (opened device force new) = [OpenDevice device (new <? 0) 0].
Proof. destruct force; reflexivity. Qed.

Lemma calls_identified (device : string) (force : bool) (new fd : Z)
    (inquiry : sg_simple_inquiry_resp) :
  calls (identified device force new fd inquiry)
  = [OpenDevice device (new <? 0) 0; SimpleInquiry fd true 0].
Proof.
  unfold identified. rewrite !calls_app, calls_opened.
  rewrite (proj1 (check_supported_calls device force inquiry)). reflexivity.
Qed.

Lemma calls_fetching (device : string) (force : bool) (new fd : Z)
    (inquiry : sg_simple_inquiry_resp) :
  calls (fetching device force new fd inquiry)
  = [OpenDevice device (new <? 0) 0; SimpleInquiry fd true 0;
     GetModePageControls fd false PAGE_CODE 0 true false sizeof_page 0].
Proof. unfold fetching. rewrite calls_app, calls_identified. reflexivity. Qed.

Lemma stdout_of_fetching (device : string) (force : bool) (new fd : Z)
    (inquiry : sg_simple_inquiry_resp) :
  stdout_of (fetching device force new fd inquiry) = [].
Proof.
  unfold fetching, identified, opened. rewrite !stdout_of_app.
  rewrite (proj2 (check_supported_calls device force inquiry)).
  destruct force; reflexivity.
Qed.

Lemma eprint_products_calls (v : string) (products : list string) :
  calls (fst (eprint_products v products)) = []
  /\ snd (eprint_products v products) = inr tt.
Proof.
  induction products as [|p rest [IHc IHr]]; [split; reflexivity|].
  cbn [eprint_products]. unfold bind, eprintf, emit.
  destruct (eprint_products v rest) as [t r]. cbn [fst snd] in *. subst r.
  split; [exact IHc|reflexivity].
Qed.

Lemma eprint_supported_calls (tbl : list (string * list string)) :
  calls (fst (eprint_supported tbl)) = []
  /\ snd (eprint_supported tbl) = inr tt.
Proof.
  induction tbl as [|[v products] rest [IHc IHr]]; [split; reflexivity|].
  cbn [eprint_supported]. unfold bind.
  destruct (eprint_products_calls v products) as [Hc Hr].
  destruct (eprint_products v products) as [t r].
  cbn [fst snd] in Hc, Hr. subst r.
  destruct (eprint_supported rest) as [t' r']. cbn [fst snd] in *. subst r'.
  rewrite calls_app, Hc, IHc. auto.
Qed.

(** The help text goes to stderr only and ends the run. *)
Lemma usage_calls (tr : transport) (argv : list string) :
  calls (fst (usage tr argv)) = [] /\ snd (usage tr argv) = inl Usage.
Proof.
  unfold usage.
  destruct (eprint_supported_calls supported) as [Hc Hr].
  destruct (eprint_supported supported) as [t r].
  cbn [fst snd] in Hc, Hr. subst r.
  run_red. rewrite !calls_app, Hc. auto.
Qed.

Lemma process_argument_error_calls (argv : list string) (t : list event)
    (e : error) :
  process_argument argv = (t, inl e) ->
  calls t = [] /\ exists arg, e = InvalidRequestedValue arg.
Proof.
  intros H. apply process_argument_error in H.
  destruct H as [arg [-> ->]]. split; [reflexivity|eauto].
Qed.

(** ** The write payload *)

Lemma land_low7 (c : Z) : 0 <= Z.land c 0x7f < 128.
Proof.
  split.
  - apply Z.land_nonneg. right. lia.
  - assert (H : Z.land c 0x7f = c mod 2 ^ 7) by (apply (Z.land_ones c 7); lia).
    rewrite H. apply Z.mod_pos_bound. lia.
Qed.

Lemma clear_ps_code (c : Z) :
  u8 (Z.land c (Z.land c 0x7f)) = Z.land c 0x7f.
Proof.
  rewrite Z.land_assoc, Z.land_diag. unfold u8.
  apply Z.mod_small. pose proof (land_low7 c). lia.
Qed.

Lemma low7_bit7 (c : Z) : Z.testbit (Z.land c 0x7f) 7 = false.
Proof. rewrite Z.land_spec. apply andb_false_r. Qed.

(** The transmitted buffer, byte by byte: eight zero bytes of header, the
    page code without the saveable bit, the length, and the ten bytes of
    [wd21] with the new LED value.  [bytes_tail] does not occur. *)
Lemma select_buffer_bytes (current : page) (new : Z) :
  select_buffer (build_packet current new)
  = header_mem zero_header
    ++ [Z.land (code current) 0x7f; len current]
    ++ wd21_mem (set_wd21_led (wd21 current) new).
Proof.
  unfold select_buffer, build_packet, packet_mem, page_mem. cbn [header pkt_page].
  unfold set_led, set_code. cbn [code len wd21 bytes_tail].
  rewrite clear_ps_code. reflexivity.
Qed.

(** C1. Round trip of the write payload: for every current page and every
    requested LED value X in 0..255, decoding the bytes that are transmitted
    gives a page whose led byte is X, whose code byte has the saveable bit
    (bit 7) clear, and whose other transmitted bytes (the low seven bits of
    the code, the length, the magic byte and the reserved bytes) are those
    of the current page. *)
Theorem write_payload_roundtrip (current : page) (X : Z) :
  0 <= X <= 255 ->
  let p := decode_packet (select_buffer (build_packet current X)) in
  led (wd21 p) = X
  /\ Z.testbit (code p) 7 = false
  /\ Z.land (code p) 0x7f = Z.land (code current) 0x7f
  /\ len p = len current
  /\ magic (wd21 p) = magic (wd21 current)
  /\ zeros0 (wd21 p) = zeros0 (wd21 current)
  /\ zeros1 (wd21 p) = zeros1 (wd21 current)
  /\ unknown1 (wd21 p) = unknown1 (wd21 current)
  /\ zeros2 (wd21 p) = zeros2 (wd21 current)
  /\ zeros3 (wd21 p) = zeros3 (wd21 current)
  /\ zeros4 (wd21 p) = zeros4 (wd21 current)
  /\ zeros5 (wd21 p) = zeros5 (wd21 current)
  /\ zeros6 (wd21 p) = zeros6 (wd21 current).
Proof.
  intros HX p. subst p. rewrite select_buffer_bytes.
  unfold decode_packet, page_of_mem, wd21_of_mem, byte_at.
  change (Z.to_nat sizeof_header) with 8%nat.
  cbn [header_mem zero_header u16_mem wd21_mem set_wd21_led app skipn nth
       hdr_len medium_type flags0 flags1 reserved block_descriptor_length
       code len wd21 magic zeros0 zeros1 unknown1 zeros2 zeros3 led zeros4
       zeros5 zeros6].
  repeat split; try reflexivity.
  - unfold u8. apply Z.mod_small. lia.
  - apply low7_bit7.
  - rewrite <- Z.land_assoc. reflexivity.
Qed.

Lemma write_payload_roundtrip_witness :
  0 <= 0 <= 255
  /\ let p := decode_packet (select_buffer (build_packet sample_current 0)) in
     led (wd21 p) = 0 /\ code p = 0x21 /\ magic (wd21 p) = 0x30
     /\ unknown1 (wd21 p) = 2.
Proof.
  split; [lia|].
  pose proof (write_payload_roundtrip sample_current 0 ltac:(lia)) as H.
  cbv zeta in H. destruct H as (Hled & _ & _ & _ & Hmagic & _ & _ & Hun & _).
  split; [exact Hled|]. split; [reflexivity|].
  split; [exact Hmagic|exact Hun].
Defined.

(** ** Reasoning on the runs of [main] *)

(** Case analysis on the run of [main] on [argv]: one goal per [return]. *)
Ltac run_cases tr argv :=
  let R := fresh "R" in
  let m := fresh "m" in
  let Em := fresh "Em" in
  pose proof (main_run_complete tr argv) as R;
  unfold fetched, trace_of, exit_status in *;
  remember (main tr argv) as m eqn:Em; clear Em;
  destruct R; cbn [fst snd] in *;
  try match goal with
      | H : process_argument _ = (_, inl _) |- _ =>
          let Hc := fresh "Hc" in
          let arg := fresh "arg" in
          destruct (process_argument_error_calls _ _ _ H) as [Hc [arg ->]]
      end;
  try match goal with
      | H : verify_modepage ?d ?c ?g ?o ?s = (_, inl _) |- _ =>
          let Hc := fresh "Hc" in
          let Hs := fresh "Hs" in
          destruct (verify_modepage_calls d c g o s) as [Hc Hs];
          rewrite H in Hc, Hs; cbn [fst] in Hc, Hs
      end.

(** The calls of an explicit trace. *)
Ltac calls_norm :=
  rewrite ?calls_app, ?calls_fetching, ?calls_identified, ?calls_opened;
  repeat match goal with
         | |- context [calls (fst (usage ?tr ?argv))] =>
             rewrite (proj1 (usage_calls tr argv))
         | H : calls ?t = [] |- context [calls ?t] => rewrite H
         end;
  cbn [calls filter is_call app submit].

(** The calls of a run, in each of its ten cases. *)
Lemma main_calls (tr : transport) (argv : list string) (m : M Z) :
  main_run tr argv m ->
  calls (fst m) = []
  \/ (exists force save new,
        process_argument argv = ([], inr (force, save, new))
        /\ let fd := sg_cmds_open_device tr (argv_at 1 argv) (new <? 0) 0 in
           let op := OpenDevice (argv_at 1 argv) (new <? 0) 0 in
           let inq := SimpleInquiry fd true 0 in
           let get := GetModePageControls fd false PAGE_CODE 0 true false
                        sizeof_page 0 in
           calls (fst m) = [op]
           \/ calls (fst m) = [op; inq]
           \/ calls (fst m) = [op; inq; get]
           \/ (exists c g o s,
                  sg_get_mode_page_controls tr fd false PAGE_CODE 0 true false
                    sizeof_page 0 = (0, (c, g, o, s))
                  /\ verify_modepage (argv_at 1 argv) c g o s = ([], inr tt)
                  /\ 0 <= new
                  /\ calls (fst m) = [op; inq; get; submit fd save new c])).
Proof.
  intros R. destruct R; cbn [fst];
    try match goal with
        | H : process_argument _ = (_, inl _) |- _ =>
            destruct (process_argument_error_calls _ _ _ H) as [Hc _]
        end;
    try match goal with
        | H : verify_modepage ?d ?c ?g ?o ?s = (_, inl _) |- _ =>
            destruct (verify_modepage_calls d c g o s) as [Hc _];
            rewrite H in Hc; cbn [fst] in Hc
        end;
    subst; calls_norm; auto;
    right; exists force, save, new; (split; [assumption|]); cbv zeta;
    try solve [auto].
  - right. right. right. exists current, changeable, original, saved. auto.
  - right. right. right. exists current, changeable, original, saved. auto.
Qed.

(** A mode select in the trace is the one that [main] builds from the
    current variant that it fetched. *)
Lemma main_submit_inv (tr : transport) (argv : list string)
    (fd : Z) (pf sp : bool) (buf : list Z) (n : Z) (noisy : bool) (v : Z) :
  In (ModeSelect10 fd pf sp buf n noisy v) (trace_of (main tr argv)) ->
  exists force new c g o s,
    process_argument argv = ([], inr (force, sp, new))
    /\ 0 <= new
    /\ fetched tr argv 0 (c, g, o, s)
    /\ verify_modepage (argv_at 1 argv) c g o s = ([], inr tt)
    /\ ModeSelect10 fd pf sp buf n noisy v
       = submit (sg_cmds_open_device tr (argv_at 1 argv) (new <? 0) 0)
           sp new c.
Proof.
  intros Hin.
  pose proof Hin as Hc. apply in_calls in Hc; [|reflexivity].
  destruct (main_calls tr argv _ (main_run_complete tr argv))
    as [H0 | (force & save & new & Hpa & H)]; unfold trace_of in *.
  - rewrite H0 in Hc. destruct Hc.
  - cbv zeta in H.
    destruct H as [H | [H | [H | (c & g & o & s & Hget & Hv & Hnew & H)]]];
      rewrite H in Hc; cbn [In] in Hc;
      repeat (destruct Hc as [Hc | Hc]; try discriminate Hc); try contradiction.
    unfold submit in Hc. inversion Hc; subst.
    exists force, new, c, g, o, s. repeat split; try assumption.
    unfold fetched, trace_of.
    exists (sg_cmds_open_device tr (argv_at 1 argv) (new <? 0) 0), false,
      PAGE_CODE, 0, true, false, sizeof_page, 0.
    split; [|assumption].
    assert (Hg : In (GetModePageControls
                       (sg_cmds_open_device tr (argv_at 1 argv) (new <? 0) 0)
                       false PAGE_CODE 0 true false sizeof_page 0)
                   (calls (fst (main tr argv)))).
    { rewrite H. cbn [In]. auto. }
    unfold calls in Hg. apply filter_In in Hg. apply Hg.
Qed.

(** C2. Every buffer handed to the mode select submission has the size of
    the mode parameter header plus 2 (the page code and length bytes) plus
    the 10 bytes of the vendor payload; it is the zero header, the code
    and length bytes and the ten payload bytes of the fetched current
    variant, so that the padding of the in-memory record ([bytes_tail]) is
    not part of it. *)
Theorem mode_select_buffer_size (tr : transport) (argv : list string)
    (fd : Z) (pf sp : bool) (buf : list Z) (n : Z) (noisy : bool) (v : Z) :
  In (ModeSelect10 fd pf sp buf n noisy v) (trace_of (main tr argv)) ->
  Z.of_nat (List.length buf) = sizeof_header + 2 + sizeof_wd21
  /\ n = sizeof_header + 2 + sizeof_wd21
  /\ exists current changeable original saved new,
       fetched tr argv 0 (current, changeable, original, saved)
       /\ buf = header_mem zero_header
                ++ [Z.land (code current) 0x7f; len current]
                ++ wd21_mem (set_wd21_led (wd21 current) new).
Proof.
  intros Hin.
  destruct (main_submit_inv _ _ _ _ _ _ _ _ _ Hin)
    as (force & new & c & g & o & s & _ & _ & Hf & _ & Hev).
  unfold submit in Hev. inversion Hev; subst.
  rewrite select_buffer_bytes.
  split; [reflexivity|]. split; [reflexivity|].
  exists c, g, o, s, new. split; [assumption|reflexivity].
Qed.

Lemma mode_select_buffer_size_witness :
  In (ModeSelect10 3 true true
        [0; 0; 0; 0; 0; 0; 0; 0; 0x21; 10; 0x30; 0; 0; 0; 0; 0; 0; 0; 0; 0]
        20 true 0)
     (trace_of (main (device_of passport good_set)
                  ["wdled"; "/dev/sdb"; "save:off"]%string))
  /\ Z.of_nat (List.length
        [0; 0; 0; 0; 0; 0; 0; 0; 0x21; 10; 0x30; 0; 0; 0; 0; 0; 0; 0; 0; 0])
     = sizeof_header + 2 + sizeof_wd21.
Proof.
  assert (H : In (ModeSelect10 3 true true
        [0; 0; 0; 0; 0; 0; 0; 0; 0x21; 10; 0x30; 0; 0; 0; 0; 0; 0; 0; 0; 0]
        20 true 0)
     (trace_of (main (device_of passport good_set)
                  ["wdled"; "/dev/sdb"; "save:off"]%string))).
  { vm_compute. do 5 right. left. reflexivity. }
  split; [exact H|].
  exact (proj1 (mode_select_buffer_size _ _ _ _ _ _ _ _ _ H)).
Defined.

(** ** The check of the mode page *)

(** A property of bytes that holds of 0, 1, ..., 255 holds of every byte. *)
Lemma u8_all (P : Z -> bool) :
  forallb P (map Z.of_nat (seq 0 256)) = true ->
  forall c, is_u8 c -> P c = true.
Proof.
  intros Hall c Hc. rewrite forallb_forall in Hall. apply Hall.
  apply in_map_iff. exists (Z.to_nat c). split.
  - apply Z2Nat.id. apply Hc.
  - apply in_seq. unfold is_u8 in Hc. lia.
Qed.

(** On bytes, the rule as the specification words it is the comparison
    with [PAGE_CODE | PS_BIT] that the code makes. *)
Lemma spec_code_ok_u8 (c : Z) :
  is_u8 c -> spec_code_ok c = (c =? 0xa1).
Proof.
  intros Hc.
  apply (u8_all (fun c => Bool.eqb (spec_code_ok c) (c =? 0xa1))) in Hc.
  - apply eqb_prop. exact Hc.
  - vm_compute. reflexivity.
Qed.

(** C3. For every fetched set of four variants (of bytes), the check
    raises UnexpectedPageId if and only if the code byte of some variant
    violates [(code & 0x7F) == 0x21] or has the saveable bit clear;
    equivalently, the first rule passes exactly when the four code bytes
    are 0xA1. *)
Theorem page_id_rule_iff (device : string) (c g o s : page) :
  is_u8 (code c) -> is_u8 (code g) -> is_u8 (code o) -> is_u8 (code s) ->
  ((exists shown,
       snd (verify_modepage device c g o s) = inl (UnexpectedPageId shown))
   <-> (exists p, In p [c; g; o; s] /\ spec_code_ok (code p) = false))
  /\ ((forall shown,
         snd (verify_modepage device c g o s) <> inl (UnexpectedPageId shown))
      <-> (code c = 0xa1 /\ code g = 0xa1 /\ code o = 0xa1 /\ code s = 0xa1)).
Proof.
  intros Hc Hg Ho Hs.
  rewrite verify_modepage_outcome. unfold rule_page_id. cbn [forallb].
  rewrite andb_true_r.
  assert (Hex : (exists p, In p [c; g; o; s] /\ spec_code_ok (code p) = false)
                <-> (code c =? 0xa1) && ((code g =? 0xa1)
                      && ((code o =? 0xa1) && (code s =? 0xa1))) = false).
  { rewrite <- (spec_code_ok_u8 _ Hc), <- (spec_code_ok_u8 _ Hg),
      <- (spec_code_ok_u8 _ Ho), <- (spec_code_ok_u8 _ Hs).
    split.
    - intros (p & Hin & Hp). cbn [In] in Hin.
      destruct Hin as [<- | [<- | [<- | [<- | []]]]]; rewrite Hp;
        rewrite ?andb_false_r; reflexivity.
    - intros H.
      destruct (spec_code_ok (code c)) eqn:Ec;
        [|exists c; cbn [In]; auto].
      destruct (spec_code_ok (code g)) eqn:Eg;
        [|exists g; cbn [In]; auto].
      destruct (spec_code_ok (code o)) eqn:Eo;
        [|exists o; cbn [In]; auto].
      destruct (spec_code_ok (code s)) eqn:Es;
        [discriminate H|exists s; cbn [In]; auto 6]. }
  assert (Hall : (code c = 0xa1 /\ code g = 0xa1 /\ code o = 0xa1
                  /\ code s = 0xa1)
                 <-> (code c =? 0xa1) && ((code g =? 0xa1)
                       && ((code o =? 0xa1) && (code s =? 0xa1))) = true).
  { rewrite !andb_true_iff, !Z.eqb_eq. tauto. }
  rewrite Hex, Hall.
  destruct ((code c =? 0xa1) && ((code g =? 0xa1)
             && ((code o =? 0xa1) && (code s =? 0xa1)))); cbn [negb].
  - split; split; intros H; try reflexivity; try discriminate H.
    + destruct H as [shown H].
      repeat match type of H with
             | (if ?b then _ else _) = _ => destruct b
             end; discriminate H.
    + intros shown H'.
      repeat match type of H' with
             | (if ?b then _ else _) = _ => destruct b
             end; discriminate H'.
  - split; split; intros H; try reflexivity; try discriminate H.
    + eauto.
    + exfalso. apply (H (code c)). reflexivity.
Qed.

Lemma page_id_rule_iff_witness :
  (is_u8 0xa1 /\ is_u8 0x21)
  /\ ((exists shown,
         snd (verify_modepage "/dev/sdb" (sample_page 0xa1 10 0x30 10)
                (sample_page 0xa1 10 0 0xff) (sample_page 0xa1 10 0x30 0)
                (sample_page 0x21 10 0x30 10))
         = inl (UnexpectedPageId shown))
      <-> (exists p,
             In p [sample_page 0xa1 10 0x30 10; sample_page 0xa1 10 0 0xff;
                   sample_page 0xa1 10 0x30 0; sample_page 0x21 10 0x30 10]
             /\ spec_code_ok (code p) = false)).
Proof.
  assert (Ha : is_u8 0xa1) by (unfold is_u8; lia).
  assert (Hb : is_u8 0x21) by (unfold is_u8; lia).
  split; [split; assumption|].
  exact (proj1 (page_id_rule_iff "/dev/sdb" (sample_page 0xa1 10 0x30 10)
                  (sample_page 0xa1 10 0 0xff) (sample_page 0xa1 10 0x30 0)
                  (sample_page 0x21 10 0x30 10) Ha Ha Ha Hb)).
Defined.

(** ** What a run does once it has fetched the mode page *)

Ltac stdout_norm :=
  rewrite ?stdout_of_app, ?stdout_of_fetching;
  repeat match goal with
         | H : stdout_of ?t = [] |- context [stdout_of ?t] => rewrite H
         end;
  cbn [stdout_of submit app].

Lemma main_after_fetch (tr : transport) (argv : list string) (result : Z)
    (c g o s : page) :
  fetched tr argv result (c, g, o, s) ->
  exists force save new,
    process_argument argv = ([], inr (force, save, new))
    /\ let device := argv_at 1 argv in
       let fd := sg_cmds_open_device tr device (new <? 0) 0 in
       let base := [OpenDevice device (new <? 0) 0; SimpleInquiry fd true 0;
                    GetModePageControls fd false PAGE_CODE 0 true false
                      sizeof_page 0] in
       let sel := sg_ll_mode_select10 tr fd true save
                    (select_buffer (build_packet c new)) packet_size true 0 in
       if negb (result =? 0) then
         snd (main tr argv) = inl (FetchFailed result)
         /\ calls (fst (main tr argv)) = base
         /\ stdout_of (fst (main tr argv)) = []
       else
         match snd (verify_modepage device c g o s) with
         | inl e =>
             snd (main tr argv) = inl e
             /\ calls (fst (main tr argv)) = base
             /\ stdout_of (fst (main tr argv)) = []
         | inr _ =>
             stdout_of (fst (main tr argv)) = [report_line c o s]
             /\ if new <? 0 then
                  snd (main tr argv) = inr 0
                  /\ calls (fst (main tr argv)) = base
                else
                  calls (fst (main tr argv)) = base ++ [submit fd save new c]
                  /\ snd (main tr argv)
                     = if sel =? 0 then inr 0 else inl (SubmitFailed sel)
         end.
Proof.
  intros Hf.
  run_cases tr argv;
    destruct Hf as (fd' & m6 & pc & spc & dbd & fl & mx & vb & Hin & Hget);
    (apply in_calls in Hin; [|reflexivity]);
    revert Hin; calls_norm; cbn [In]; intros Hin;
    repeat (destruct Hin as [Hin | Hin]; try discriminate Hin);
    try contradiction;
    inversion Hin; subst; clear Hin;
    match goal with
    | H1 : sg_get_mode_page_controls _ _ _ _ _ _ _ _ _ = _,
      H2 : sg_get_mode_page_controls _ _ _ _ _ _ _ _ _ = _ |- _ =>
        rewrite H1 in H2; inversion H2; subst; clear H2
    end;
    exists force, save, new; (split; [assumption|]); cbv zeta.
  - (* the fetch failed *)
    match goal with H : _ <> 0 |- _ => apply Z.eqb_neq in H; rewrite H end.
    cbn [negb]. calls_norm. stdout_norm. auto.
  - (* the check failed *)
    rewrite Z.eqb_refl. cbn [negb].
    match goal with H : verify_modepage _ _ _ _ _ = _ |- _ => rewrite H end.
    cbn [snd]. calls_norm. stdout_norm. auto.
  - (* no value requested *)
    rewrite Z.eqb_refl. cbn [negb].
    match goal with H : verify_modepage _ _ _ _ _ = _ |- _ => rewrite H end.
    cbn [snd]. calls_norm. stdout_norm.
    assert (E : (new <? 0) = true) by (apply Z.ltb_lt; assumption).
    rewrite E. auto.
  - (* the write failed *)
    rewrite Z.eqb_refl. cbn [negb].
    match goal with H : verify_modepage _ _ _ _ _ = _ |- _ => rewrite H end.
    cbn [snd]. calls_norm. stdout_norm.
    assert (E : (new <? 0) = false) by (apply Z.ltb_ge; assumption).
    rewrite E in *.
    match goal with H : _ <> 0 |- _ => apply Z.eqb_neq in H; rewrite H end.
    auto.
  - (* the write succeeded *)
    rewrite Z.eqb_refl. cbn [negb].
    match goal with H : verify_modepage _ _ _ _ _ = _ |- _ => rewrite H end.
    cbn [snd]. calls_norm. stdout_norm.
    assert (E : (new <? 0) = false) by (apply Z.ltb_ge; assumption).
    rewrite E in *.
    match goal with H : _ = 0 |- _ => rewrite H end.
    auto.
Qed.

Lemma no_submit_of_calls (t : list event) :
  (forall ev, In ev (calls t) -> is_submit ev = false) ->
  forall ev, In ev t -> is_submit ev = false.
Proof.
  intros H ev Hin. destruct (is_submit ev) eqn:E; [|reflexivity].
  rewrite <- E. apply H. apply in_calls; [assumption|].
  destruct ev; try discriminate E; reflexivity.
Qed.

Lemma base_no_submit (d : string) (ro : bool) (fd : Z) (ev : event) :
  In ev [OpenDevice d ro 0; SimpleInquiry fd true 0;
         GetModePageControls fd false PAGE_CODE 0 true false sizeof_page 0] ->
  is_submit ev = false.
Proof.
  cbn [In]. intros [<- | [<- | [<- | []]]]; reflexivity.
Qed.

(** The value that is parsed is negative exactly when none was given. *)
Lemma process_argument_no_value (argv : list string) (t : list event)
    (force save : bool) (new : Z) :
  process_argument argv = (t, inr (force, save, new)) ->
  (new <? 0) = no_value_requested argv.
Proof.
  unfold process_argument, no_value_requested.
  destruct (2 <? Z.of_nat (List.length argv)); cbn [negb orb];
    [|intros H; inversion H; reflexivity].
  destruct (streq (argv_at 2 argv) "FORCEGET");
    [intros H; inversion H; reflexivity|].
  repeat match goal with
         | |- context [let '(_, _) := (if ?c then _ else _) in _] => destruct c
         end;
    repeat match goal with
           | |- context [if streq ?a ?b then _ else _] => destruct (streq a b)
           end;
    try (intros H; inversion H; reflexivity);
    match goal with
    | |- context [strtol ?a] => destruct (strtol a) as [v endptr]
    end;
    destruct (negb (streq endptr "") || (to_int v <? 0) || (255 <? to_int v))
      eqn:E; intros H; inversion H; subst;
    apply orb_false_elim in E; destruct E as [E _];
    apply orb_false_elim in E; destruct E as [_ E]; exact E.
Qed.

(** The override flag that is parsed is the token of the command line. *)
Lemma process_argument_force (argv : list string) (t : list event)
    (force save : bool) (new : Z) :
  process_argument argv = (t, inr (force, save, new)) ->
  force = force_requested argv.
Proof.
  unfold process_argument, force_requested.
  destruct (2 <? Z.of_nat (List.length argv)); cbn [andb];
    [|intros H; inversion H; reflexivity].
  destruct (streq (argv_at 2 argv) "FORCEGET"); cbn [orb];
    [intros H; inversion H; reflexivity|].
  destruct (strneq (String.length "FORCESET:") (argv_at 2 argv) "FORCESET:");
    repeat match goal with
           | |- context [let '(_, _) := (if ?c then _ else _) in _] => destruct c
           end;
    repeat match goal with
           | |- context [if streq ?a ?b then _ else _] => destruct (streq a b)
           end;
    try (intros H; inversion H; reflexivity);
    match goal with
    | |- context [strtol ?a] => destruct (strtol a) as [v endptr]
    end;
    destruct (negb (streq endptr "") || (to_int v <? 0) || (255 <? to_int v));
    intros H; inversion H; reflexivity.
Qed.

(** ** The LED mask *)


Lemma fetched_sample (inquiry : sg_simple_inquiry_resp)
    (set : page * page * page * page) (argv : list string) :
  In (GetModePageControls 3 false PAGE_CODE 0 true false sizeof_page 0)
    (trace_of (main (device_of inquiry set) argv)) ->
  fetched (device_of inquiry set) argv 0 set.
Proof.
  intros H. unfold fetched.
  exists 3, false, PAGE_CODE, 0, true, false, sizeof_page, 0.
  split; [exact H|reflexivity].
Qed.



(** ** The report *)

(** C6, as the code has it. Every invocation without an LED value that
    fetches a set passing the check writes the one line
    [LED: current=<n> original=<n> saved=<n>] to stdout, exits with status 0
    and never calls the mode select. *)
Theorem read_only_report (tr : transport) (argv : list string)
    (c g o s : page) :
  no_value_requested argv = true ->
  fetched tr argv 0 (c, g, o, s) ->
  snd (verify_modepage (argv_at 1 argv) c g o s) = inr tt ->
  stdout_of (trace_of (main tr argv)) = [report_line c o s]
  /\ exit_status (main tr argv) = 0
  /\ (forall ev, In ev (trace_of (main tr argv)) -> is_submit ev = false).
Proof.
  intros Hnv Hf Hv.
  destruct (main_after_fetch _ _ _ _ _ _ _ Hf) as (force & save & new & Hpa & H).
  cbv zeta in H. unfold exit_status, trace_of.
  rewrite Hv in H. cbn [negb Z.eqb] in H.
  rewrite (process_argument_no_value _ _ _ _ _ Hpa), Hnv in H.
  destruct H as (Hout & Hs & Hc). rewrite Hs.
  split; [exact Hout|]. split; [reflexivity|].
  apply no_submit_of_calls. rewrite Hc. apply base_no_submit.
Qed.

Lemma read_only_report_witness :
  no_value_requested ["wdled"; "/dev/sdb"]%string = true
  /\ fetched (device_of passport good_set) ["wdled"; "/dev/sdb"]%string
       0 good_set
  /\ stdout_of (trace_of (main (device_of passport good_set)
                            ["wdled"; "/dev/sdb"]%string))
     = [String.append "LED: current=10 original=0 saved=10" nl]
  /\ exit_status (main (device_of passport good_set)
                    ["wdled"; "/dev/sdb"]%string) = 0.
Proof.
  assert (Hf : fetched (device_of passport good_set)
                 ["wdled"; "/dev/sdb"]%string 0 good_set).
  { apply fetched_sample. vm_compute. do 3 right. left. reflexivity. }
  destruct (read_only_report (device_of passport good_set)
              ["wdled"; "/dev/sdb"]%string _ _ _ _
              eq_refl Hf eq_refl) as (Hout & Hst & _).
  split; [reflexivity|]. split; [exact Hf|].
  split; [exact Hout|exact Hst].
Defined.

(** C6 as stated fails on the form of the line: on a device with LED
    values 10, 0 and 10 the line is [LED: current=10 original=0 saved=10],
    in which [current=10 default=0 saved=10] does not occur. *)
Lemma report_line_not_in_spec_form :
  no_value_requested ["wdled"; "/dev/sdb"]%string = true
  /\ snd (main (device_of passport good_set) ["wdled"; "/dev/sdb"]%string)
     = inr 0
  /\ stdout_of (trace_of (main (device_of passport good_set)
                            ["wdled"; "/dev/sdb"]%string))
     = [String.append "LED: current=10 original=0 saved=10" nl]
  /\ str_contains (spec_report_line 10 0 10)
       (String.append "LED: current=10 original=0 saved=10" nl) = false
  /\ str_contains "default="
       (String.append "LED: current=10 original=0 saved=10" nl) = false.
Proof. repeat split; vm_compute; reflexivity. Qed.

(** ** The magic byte *)

(** C7, as the code has it. When the four code bytes and the four length
    bytes pass their rules, a magic byte of the current variant other than
    0x30 makes the check fail with UnexpectedMagic, whatever the remaining
    fields are, and a run that fetched the set ends with that error. *)
Theorem magic_rule_after_id_and_length (c g o s : page) :
  rule_page_id c g o s = true ->
  rule_length c g o s = true ->
  magic (wd21 c) <> 0x30 ->
  (forall device,
     snd (verify_modepage device c g o s)
     = inl (UnexpectedMagic (magic (wd21 c))))
  /\ (forall tr argv,
        fetched tr argv 0 (c, g, o, s) ->
        snd (main tr argv) = inl (UnexpectedMagic (magic (wd21 c)))
        /\ exit_status (main tr argv) = 1).
Proof.
  intros Hid Hlen Hmagic.
  assert (Hm : rule_magic c = false) by (apply Z.eqb_neq; exact Hmagic).
  assert (Hv : forall device,
             snd (verify_modepage device c g o s)
             = inl (UnexpectedMagic (magic (wd21 c)))).
  { intros device. rewrite verify_modepage_outcome, Hid, Hlen, Hm.
    reflexivity. }
  split; [exact Hv|].
  intros tr argv Hf.
  destruct (main_after_fetch _ _ _ _ _ _ _ Hf) as (force & save & new & _ & H).
  cbv zeta in H. rewrite Hv in H. cbn [negb Z.eqb] in H.
  destruct H as (Hs & _). unfold exit_status. rewrite Hs. auto.
Qed.

Lemma magic_rule_after_id_and_length_witness :
  rule_page_id (sample_page 0xa1 10 0x31 10) (sample_page 0xa1 10 0 0xff)
    (sample_page 0xa1 10 0x30 0) (sample_page 0xa1 10 0x30 10) = true
  /\ 0x31 <> 0x30
  /\ snd (main (device_of passport bad_magic_set)
            ["wdled"; "/dev/sdb"]%string)
     = inl (UnexpectedMagic 0x31).
Proof.
  assert (Hm : 0x31 <> 0x30) by lia.
  split; [reflexivity|]. split; [exact Hm|].
  apply (proj2 (magic_rule_after_id_and_length
                  (sample_page 0xa1 10 0x31 10) (sample_page 0xa1 10 0 0xff)
                  (sample_page 0xa1 10 0x30 0) (sample_page 0xa1 10 0x30 10)
                  eq_refl eq_refl Hm)).
  apply (fetched_sample passport bad_magic_set).
  vm_compute. do 3 right. left. reflexivity.
Defined.

(** C7 as stated fails: the other fields matter.  A current variant with a
    magic byte of 0x31 and a code byte of 0x21 fails with UnexpectedPageId. *)
Lemma magic_masked_by_page_id :
  magic (wd21 (sample_page 0x21 10 0x31 10)) <> 0x30
  /\ snd (verify_modepage "/dev/sdb" (sample_page 0x21 10 0x31 10)
            (sample_page 0xa1 10 0 0) (sample_page 0xa1 10 0x30 0)
            (sample_page 0xa1 10 0x30 10))
     = inl (UnexpectedPageId 0x21)
  /\ forall shown,
       snd (verify_modepage "/dev/sdb" (sample_page 0x21 10 0x31 10)
              (sample_page 0xa1 10 0 0) (sample_page 0xa1 10 0x30 0)
              (sample_page 0xa1 10 0x30 10))
       <> inl (UnexpectedMagic shown).
Proof.
  split; [cbn; lia|]. split; [reflexivity|].
  intros shown H. vm_compute in H. discriminate H.
Qed.

(** ** The diagnostic of the check *)

(** The byte in the page identifier and length diagnostics is always the
    one of the current variant. *)
Lemma verify_modepage_shows_current (device : string) (c g o s : page)
    (shown : Z) :
  (snd (verify_modepage device c g o s) = inl (UnexpectedPageId shown) ->
   shown = code c)
  /\ (snd (verify_modepage device c g o s) = inl (UnexpectedPageLength shown) ->
      shown = len c).
Proof.
  rewrite verify_modepage_outcome.
  destruct (rule_page_id c g o s), (rule_length c g o s), (rule_magic c),
    (rule_led g); cbn [negb]; split; intros H; inversion H; reflexivity.
Qed.

(** C8, at the failing input: the saved variant alone has a wrong code byte
    (0x21); the check stops at the page identifier rule, and the line it
    writes shows 0xa1, the code byte of the current variant, which is the
    expected value, not the byte 0x21 that violated the rule. *)
Theorem page_id_diagnostic_shows_current_code :
  verify_modepage "/dev/sdb" (sample_page 0xa1 10 0x30 10)
    (sample_page 0xa1 10 0 0xff) (sample_page 0xa1 10 0x30 0)
    (sample_page 0x21 10 0x30 10)
  = ([Stderr (String.append
                "/dev/sdb: ERROR: Unexpected mode page id (0xa1)" nl)],
     inl (UnexpectedPageId 0xa1)).
Proof. vm_compute. reflexivity. Qed.

(** ** The requested value *)

Lemma process_argument_off (prog device : string) :
  process_argument [prog; device; "off"%string] = ([], inr (false, false, 0)).
Proof. reflexivity. Qed.

Lemma process_argument_on (prog device : string) :
  process_argument [prog; device; "on"%string] = ([], inr (false, false, 255)).
Proof. reflexivity. Qed.

(** A value that is refused ends the run before any device call. *)
Lemma invalid_value_no_call (tr : transport) (argv : list string)
    (arg : string) :
  snd (main tr argv) = inl (InvalidRequestedValue arg) ->
  calls (trace_of (main tr argv)) = [] /\ exit_status (main tr argv) = 1.
Proof.
  intros H. unfold exit_status. rewrite H. split; [|reflexivity].
  revert H. run_cases tr argv; intros Hout; try discriminate Hout.
  - assumption.
  - match goal with
    | H : snd (check_supported _ _ _) = inl _ |- _ =>
        apply check_supported_error in H; destruct H as [_ [what ->]]
    end.
    discriminate Hout.
  - injection Hout as ->.
    match goal with
    | H : verify_modepage ?d ?c ?g ?o ?s = _ |- _ =>
        pose proof (verify_modepage_outcome d c g o s) as Ho;
        rewrite H in Ho; cbn [snd] in Ho
    end.
    repeat match type of Ho with
           | _ = (if ?b then _ else _) => destruct b
           end; discriminate Ho.
Qed.

(** C5, at the failing input: the empty string as value (also what is left
    of [save:]) is not refused.  It is read as 0: the device is opened for
    writing and the LED byte 0 is sent. *)
Theorem empty_value_accepted :
  process_argument ["wdled"; "/dev/sdb"; ""]%string
  = ([], inr (false, false, 0))
  /\ process_argument ["wdled"; "/dev/sdb"; "save:"]%string
     = ([], inr (false, true, 0))
  /\ main (device_of passport good_set) ["wdled"; "/dev/sdb"; ""]%string
     = ([OpenDevice "/dev/sdb" false 0; SimpleInquiry 3 true 0;
         Stderr (String.append "/dev/sdb: WD       My Passport 259F (rev 1012)" nl);
         GetModePageControls 3 false 0x21 0 true false 34 0;
         Stdout (String.append "LED: current=10 original=0 saved=10" nl);
         ModeSelect10 3 true false
           [0; 0; 0; 0; 0; 0; 0; 0; 0x21; 10; 0x30; 0; 0; 0; 0; 0; 0; 0; 0; 0]
           20 true 0],
        inr 0).
Proof. repeat split; vm_compute; reflexivity. Qed.

(** With a 64-bit [long], a number that is 0 modulo [2 ^ 32] is accepted as
    well, by the conversion of the result of [strtol] to [int]. *)
Lemma wrapped_value_accepted :
  process_argument ["wdled"; "/dev/sdb"; "4294967296"]%string
  = ([], inr (false, false, 0)).
Proof. vm_compute. reflexivity. Qed.

(** The decimal numerals of 0 to 255 are accepted with their value, and
    those of 256 to 999 are refused. *)
Lemma decimal_values :
  forallb (fun n =>
             match process_argument ["wdled"; "/dev/sdb"; fmt_d n]%string with
             | (_, inr (_, _, new)) => (new =? n) && (n <=? 255)
             | (_, inl _) => 255 <? n
             end) (map Z.of_nat (seq 0 1000)) = true.
Proof. vm_compute. reflexivity. Qed.

(** ** Opening the device *)






(** ** The override *)

(** Under the override, a device that is not in the table gets a warning
    in place of the error. *)
Lemma check_supported_force_warning (device : string)
    (inquiry : sg_simple_inquiry_resp) :
  supported_device inquiry = false ->
  exists msg, In (Stderr msg) (fst (check_supported device true inquiry))
              /\ skip_warning msg = true.
Proof.
  unfold supported_device, check_supported.
  destruct (scan_vendors supported inquiry 0) as [vid pid].
  destruct (nth_error supported vid) as [[v products]|];
    [destruct (nth_error products pid)|]; intros H; try discriminate H;
    cbn [negb]; eexists; (split; [left; reflexivity|reflexivity]).
Qed.

(** A failed open ends the run. *)
Lemma main_open_failed (tr : transport) (argv : list string)
    (d : string) (ro : bool) (v : Z) :
  In (OpenDevice d ro v) (trace_of (main tr argv)) ->
  sg_cmds_open_device tr d ro v < 0 ->
  snd (main tr argv) = inl (OpenFailed (sg_cmds_open_device tr d ro v)).
Proof.
  intros Hin Hneg. apply in_calls in Hin; [|reflexivity].
  run_cases tr argv; revert Hin; calls_norm; cbn [In]; intros Hin;
    repeat (destruct Hin as [Hin | Hin]; try discriminate Hin);
    try contradiction; inversion Hin; subst; try lia; reflexivity.
Qed.

(** A failed inquiry ends the run. *)
Lemma main_inquiry_failed (tr : transport) (argv : list string)
    (fd : Z) (noisy : bool) (v : Z) :
  In (SimpleInquiry fd noisy v) (trace_of (main tr argv)) ->
  fst (sg_simple_inquiry tr fd noisy v) <> 0 ->
  snd (main tr argv)
  = inl (InquiryFailed (fst (sg_simple_inquiry tr fd noisy v))).
Proof.
  intros Hin Hneg. apply in_calls in Hin; [|reflexivity].
  run_cases tr argv; revert Hin; calls_norm; cbn [In]; intros Hin;
    repeat (destruct Hin as [Hin | Hin]; try discriminate Hin);
    try contradiction; inversion Hin; subst;
    match goal with
    | H : sg_simple_inquiry _ _ _ _ = _ |- _ =>
        rewrite H in Hneg |- *; cbn [fst] in Hneg |- *
    end;
    try (exfalso; apply Hneg; reflexivity); reflexivity.
Qed.

(** A failed mode select ends the run. *)
Lemma main_submit_failed (tr : transport) (argv : list string)
    (fd : Z) (pf sp : bool) (buf : list Z) (n : Z) (noisy : bool) (v : Z) :
  In (ModeSelect10 fd pf sp buf n noisy v) (trace_of (main tr argv)) ->
  sg_ll_mode_select10 tr fd pf sp buf n noisy v <> 0 ->
  snd (main tr argv)
  = inl (SubmitFailed (sg_ll_mode_select10 tr fd pf sp buf n noisy v)).
Proof.
  intros Hin Hneg.
  destruct (main_submit_inv _ _ _ _ _ _ _ _ _ Hin)
    as (force & new & c & g & o & s & Hpa & Hnew & Hf & Hv & Hev).
  unfold submit in Hev. inversion Hev; subst.
  destruct (main_after_fetch _ _ _ _ _ _ _ Hf)
    as (force' & save' & new' & Hpa' & H).
  rewrite Hpa in Hpa'. inversion Hpa'; subst. cbv zeta in H.
  rewrite Hv in H. cbn [negb Z.eqb snd] in H.
  assert (E : (new' <? 0) = false) by (apply Z.ltb_ge; assumption).
  rewrite E in *. destruct H as (_ & _ & Hs). rewrite Hs.
  apply Z.eqb_neq in Hneg. rewrite Hneg. reflexivity.
Qed.

(** Under the override, a run goes on from a successful inquiry to the
    fetch, with a warning if the device is not in the table. *)
Lemma main_force_goes_on (tr : transport) (argv : list string)
    (fd : Z) (noisy : bool) (v : Z) (inquiry : sg_simple_inquiry_resp) :
  force_requested argv = true ->
  In (SimpleInquiry fd noisy v) (trace_of (main tr argv)) ->
  sg_simple_inquiry tr fd noisy v = (0, inquiry) ->
  In (GetModePageControls fd false PAGE_CODE 0 true false sizeof_page 0)
    (trace_of (main tr argv))
  /\ (supported_device inquiry = false ->
      exists msg, In (Stderr msg) (trace_of (main tr argv))
                  /\ skip_warning msg = true).
Proof.
  intros Hforce Hin Hinq. apply in_calls in Hin; [|reflexivity].
  run_cases tr argv; revert Hin; calls_norm; cbn [In]; intros Hin;
    repeat (destruct Hin as [Hin | Hin]; try discriminate Hin);
    try contradiction; inversion Hin; subst;
    match goal with
    | H : sg_simple_inquiry _ _ _ _ = _ |- _ =>
        rewrite H in Hinq; inversion Hinq; subst
    end;
    try congruence;
    match goal with
    | H : process_argument _ = _ |- _ =>
        apply process_argument_force in H; rewrite Hforce in H; subst
    end;
    try match goal with
        | H : snd (check_supported _ _ _) = inl _ |- _ =>
            apply check_supported_error in H; destruct H as [H _];
            discriminate H
        end;
    (split;
     [ unfold fetching; rewrite !in_app_iff; cbn [In]; auto
     | intros Hns;
       destruct (check_supported_force_warning (argv_at 1 argv) _ Hns)
         as (warning & Hm & Hw);
       exists warning; split; [|exact Hw];
       unfold fetching, identified; rewrite !in_app_iff; cbn [In]; auto 8 ]).
Qed.

(** Under the override no run ends on the identity check. *)
Lemma main_force_not_unsupported (tr : transport) (argv : list string)
    (what : unsupported) :
  force_requested argv = true ->
  snd (main tr argv) <> inl (UnsupportedDevice what).
Proof.
  intros Hforce.
  run_cases tr argv; intros Hout; try discriminate Hout.
  - match goal with
    | H : process_argument _ = _ |- _ =>
        apply process_argument_force in H; rewrite Hforce in H; subst
    end.
    match goal with
    | H : snd (check_supported _ _ _) = inl _ |- _ =>
        apply check_supported_error in H; destruct H as [H _]; discriminate H
    end.
  - injection Hout as ->.
    match goal with
    | H : verify_modepage ?d ?c ?g ?o ?s = _ |- _ =>
        pose proof (verify_modepage_outcome d c g o s) as Ho;
        rewrite H in Ho; cbn [snd] in Ho
    end.
    repeat match type of Ho with
           | _ = (if ?b then _ else _) => destruct b
           end; discriminate Ho.
Qed.

(** C9. In a run with the override token only the identity check is
    relaxed: the run never ends with UnsupportedDevice and goes on to the
    fetch with a warning, while a failed open, inquiry, fetch or mode
    select, and the first failing rule among page identifier, length, magic
    and LED mask, each end the run with their own error and status 1. *)
Theorem force_only_skips_identity (tr : transport) (argv : list string) :
  force_requested argv = true ->
  (forall what, snd (main tr argv) <> inl (UnsupportedDevice what))
  /\ (forall fd noisy v inquiry,
        In (SimpleInquiry fd noisy v) (trace_of (main tr argv)) ->
        sg_simple_inquiry tr fd noisy v = (0, inquiry) ->
        In (GetModePageControls fd false PAGE_CODE 0 true false sizeof_page 0)
          (trace_of (main tr argv))
        /\ (supported_device inquiry = false ->
            exists msg, In (Stderr msg) (trace_of (main tr argv))
                        /\ skip_warning msg = true))
  /\ (forall d ro v,
        In (OpenDevice d ro v) (trace_of (main tr argv)) ->
        sg_cmds_open_device tr d ro v < 0 ->
        snd (main tr argv) = inl (OpenFailed (sg_cmds_open_device tr d ro v)))
  /\ (forall fd noisy v,
        In (SimpleInquiry fd noisy v) (trace_of (main tr argv)) ->
        fst (sg_simple_inquiry tr fd noisy v) <> 0 ->
        snd (main tr argv)
        = inl (InquiryFailed (fst (sg_simple_inquiry tr fd noisy v))))
  /\ (forall result set,
        fetched tr argv result set -> result <> 0 ->
        snd (main tr argv) = inl (FetchFailed result))
  /\ (forall c g o s,
        fetched tr argv 0 (c, g, o, s) ->
        (rule_page_id c g o s = false ->
         snd (main tr argv) = inl (UnexpectedPageId (code c)))
        /\ (rule_page_id c g o s = true -> rule_length c g o s = false ->
            snd (main tr argv) = inl (UnexpectedPageLength (len c)))
        /\ (rule_page_id c g o s = true -> rule_length c g o s = true ->
            rule_magic c = false ->
            snd (main tr argv) = inl (UnexpectedMagic (magic (wd21 c))))
        /\ (rule_page_id c g o s = true -> rule_length c g o s = true ->
            rule_magic c = true -> rule_led g = false ->
            snd (main tr argv) = inl (LedNotChangeable (led (wd21 g)))))
  /\ (forall fd pf sp buf n noisy v,
        In (ModeSelect10 fd pf sp buf n noisy v) (trace_of (main tr argv)) ->
        sg_ll_mode_select10 tr fd pf sp buf n noisy v <> 0 ->
        snd (main tr argv)
        = inl (SubmitFailed (sg_ll_mode_select10 tr fd pf sp buf n noisy v)))
  /\ (forall e, snd (main tr argv) = inl e -> exit_status (main tr argv) = 1).
Proof.
  intros Hforce.
  split; [intros what; apply main_force_not_unsupported; exact Hforce|].
  split; [intros fd noisy v inquiry; apply main_force_goes_on; exact Hforce|].
  split; [apply main_open_failed|].
  split; [apply main_inquiry_failed|].
  split.
  { intros result [[[c g] o] s] Hf Hres.
    destruct (main_after_fetch _ _ _ _ _ _ _ Hf) as (f & sv & new & _ & H).
    cbv zeta in H. apply Z.eqb_neq in Hres. rewrite Hres in H.
    cbn [negb] in H. apply H. }
  split.
  { intros c g o s Hf.
    destruct (main_after_fetch _ _ _ _ _ _ _ Hf) as (f & sv & new & _ & H).
    cbv zeta in H. rewrite verify_modepage_outcome in H.
    cbn [negb Z.eqb] in H.
    repeat split; intros;
      repeat match goal with
             | E : _ = true |- _ => rewrite E in H
             | E : _ = false |- _ => rewrite E in H
             end; cbn [negb] in H; apply H. }
  split; [apply main_submit_failed|].
  intros e He. unfold exit_status. rewrite He. reflexivity.
Qed.

Lemma force_only_skips_identity_witness :
  force_requested ["wdled"; "/dev/sdb"; "FORCESET:on"]%string = true
  /\ (forall what,
        snd (main (device_of unknown_disk bad_magic_set)
               ["wdled"; "/dev/sdb"; "FORCESET:on"]%string)
        <> inl (UnsupportedDevice what))
  /\ snd (main (device_of unknown_disk bad_magic_set)
            ["wdled"; "/dev/sdb"; "FORCESET:on"]%string)
     = inl (UnexpectedMagic 0x31).
Proof.
  split; [reflexivity|].
  pose proof (force_only_skips_identity (device_of unknown_disk bad_magic_set)
                ["wdled"; "/dev/sdb"; "FORCESET:on"]%string eq_refl)
    as (Hid & _ & _ & _ & _ & Hrules & _).
  split; [exact Hid|].
  assert (Hf : fetched (device_of unknown_disk bad_magic_set)
                 ["wdled"; "/dev/sdb"; "FORCESET:on"]%string 0 bad_magic_set).
  { apply fetched_sample. vm_compute. do 5 right. left. reflexivity. }
  destruct (Hrules _ _ _ _ Hf) as (_ & _ & Hmagic & _).
  apply Hmagic; reflexivity.
Defined.

(** * Further properties of [main] *)

(** ** The help text (lines 101-121) *)

Lemma eprint_products_stdout (v : string) (products : list string) :
  stdout_of (fst (eprint_products v products)) = [].
Proof.
  induction products as [|p rest IH]; [reflexivity|].
  cbn [eprint_products]. unfold bind, eprintf, emit.
  destruct (eprint_products v rest) as [t r]. cbn [fst] in *. exact IH.
Qed.

Lemma eprint_supported_stdout (tbl : list (string * list string)) :
  stdout_of (fst (eprint_supported tbl)) = [].
Proof.
  induction tbl as [|[v products] rest IH]; [reflexivity|].
  cbn [eprint_supported]. unfold bind.
  pose proof (eprint_products_stdout v products) as Hp.
  destruct (eprint_products_calls v products) as [_ Hr].
  destruct (eprint_products v products) as [t r]. cbn [fst snd] in *. subst r.
  destruct (eprint_supported rest) as [t' r']. cbn [fst] in *.
  rewrite stdout_of_app, Hp, IH. reflexivity.
Qed.

Lemma usage_stdout (tr : transport) (argv : list string) :
  stdout_of (fst (usage tr argv)) = [].
Proof.
  unfold usage.
  pose proof (eprint_supported_stdout supported) as Hs.
  destruct (eprint_supported_calls supported) as [_ Hr].
  destruct (eprint_supported supported) as [t r]. cbn [fst snd] in *. subst r.
  run_red. rewrite !stdout_of_app, Hs. reflexivity.
Qed.

Lemma main_usage (tr : transport) (argv : list string) :
  wants_usage argv = true -> main tr argv = usage tr argv.
Proof.
  intros H. unfold main.
  change (_ || _ || streq (argv_at 1 argv) "-h") with (wants_usage argv).
  rewrite H. reflexivity.
Qed.

(** X1. With fewer than one or more than two arguments, or with [--help],
    [-help] or [-h] as the first one, the run writes the help text to stderr,
    with the version that [sg_cmds_version()] returns on its second line, and
    returns 1: it makes none of the four device calls (open, inquiry, mode
    sense, mode select) and prints nothing on stdout. *)
Theorem usage_touches_no_device (tr : transport) (argv : list string) :
  wants_usage argv = true ->
  calls (trace_of (main tr argv)) = []
  /\ stdout_of (trace_of (main tr argv)) = []
  /\ snd (main tr argv) = inl Usage
  /\ exit_status (main tr argv) = 1
  /\ exists first rest,
       trace_of (main tr argv)
       = Stderr first
         :: Stderr ("sg_cmds v" ++ sg_cmds_version tr ++ nl) :: rest.
Proof.
  intros H. unfold trace_of, exit_status. rewrite (main_usage _ _ H).
  destruct (usage_calls tr argv) as [Hc Hs]. rewrite Hc, Hs, usage_stdout.
  repeat (split; [reflexivity|]).
  unfold usage. run_red. cbn [app fst]. eexists. eexists. reflexivity.
Qed.

Lemma usage_touches_no_device_witness :
  wants_usage ["wdled"; "--help"; "on"]%string = true
  /\ calls (trace_of (main (device_of passport good_set)
                        ["wdled"; "--help"; "on"]%string)) = []
  /\ exit_status (main (device_of passport good_set)
                    ["wdled"; "--help"; "on"]%string) = 1.
Proof.
  destruct (usage_touches_no_device (device_of passport good_set)
              ["wdled"; "--help"; "on"]%string eq_refl)
    as (Hc & _ & _ & Hs & _).
  split; [reflexivity|]. split; [exact Hc|exact Hs].
Defined.

Lemma eprint_products_lists (v p : string) (products : list string) :
  In p products ->
  In (Stderr ("  " ++ v ++ " " ++ p ++ nl)) (fst (eprint_products v products)).
Proof.
  induction products as [|q rest IH]; intros Hin; [destruct Hin|].
  cbn [eprint_products]. unfold bind, eprintf, emit.
  destruct (eprint_products v rest) as [t r]. cbn [fst app] in *.
  destruct Hin as [-> | Hin]; [left; reflexivity|right; apply IH; exact Hin].
Qed.

Lemma eprint_supported_lists (tbl : list (string * list string))
    (v p : string) (products : list string) :
  In (v, products) tbl -> In p products ->
  In (Stderr ("  " ++ v ++ " " ++ p ++ nl)) (fst (eprint_supported tbl)).
Proof.
  induction tbl as [|[w ps] rest IH]; intros Hin Hp; [destruct Hin|].
  cbn [eprint_supported]. unfold bind.
  pose proof (eprint_products_lists w p ps) as Hl.
  destruct (eprint_products_calls w ps) as [_ Hr].
  destruct (eprint_products w ps) as [t r]. cbn [fst snd] in *. subst r.
  destruct (eprint_supported rest) as [t' r']. cbn [fst] in *.
  apply in_app_iff.
  destruct Hin as [E | Hin].
  - inversion E; subst. left. apply Hl. exact Hp.
  - right. apply IH; assumption.
Qed.

(** X2. The help text names every product of every vendor of the table of
    supported devices, one per line, as two spaces, the vendor, a space and
    the product. *)
Theorem usage_lists_supported (tr : transport) (argv : list string)
    (v p : string) (products : list string) :
  wants_usage argv = true ->
  In (v, products) supported -> In p products ->
  In (Stderr ("  " ++ v ++ " " ++ p ++ nl)) (trace_of (main tr argv)).
Proof.
  intros H Hv Hp. unfold trace_of. rewrite (main_usage _ _ H). unfold usage.
  pose proof (eprint_supported_lists supported v p products Hv Hp) as Hl.
  destruct (eprint_supported_calls supported) as [_ Hr].
  destruct (eprint_supported supported) as [t r]. cbn [fst snd] in *. subst r.
  run_red. rewrite !in_app_iff. do 12 right. left. exact Hl.
Qed.

Lemma usage_lists_supported_witness :
  wants_usage ["wdled"]%string = true
  /\ In ("WD      "%string, wd_products) supported
  /\ In "My Passport 25E2"%string wd_products
  /\ In (Stderr (String.append "  WD       My Passport 25E2" nl))
       (trace_of (main (device_of passport good_set) ["wdled"]%string)).
Proof.
  assert (Hv : In ("WD      "%string, wd_products) supported)
    by (left; reflexivity).
  assert (Hp : In "My Passport 25E2"%string wd_products)
    by (do 5 right; left; reflexivity).
  split; [reflexivity|]. split; [exact Hv|]. split; [exact Hp|].
  exact (usage_lists_supported (device_of passport good_set)
           ["wdled"]%string _ _ _ eq_refl Hv Hp).
Defined.

(** ** The argument (lines 123-158) *)

(** What a successful parse returns. *)
Lemma process_argument_range (argv : list string) (t : list event)
    (force save : bool) (new : Z) :
  process_argument argv = (t, inr (force, save, new)) ->
  (no_value_requested argv = true /\ new = -1 /\ save = false)
  \/ (no_value_requested argv = false /\ 0 <= new <= 255).
Proof.
  unfold process_argument, no_value_requested.
  destruct (2 <? Z.of_nat (List.length argv)); cbn [negb orb];
    [|intros H; inversion H; left; auto].
  destruct (streq (argv_at 2 argv) "FORCEGET");
    [intros H; inversion H; left; auto|].
  repeat match goal with
         | |- context [let '(_, _) := (if ?c then _ else _) in _] => destruct c
         end;
    repeat match goal with
           | |- context [if streq ?a ?b then _ else _] => destruct (streq a b)
           end;
    try (intros H; inversion H; right; split; [reflexivity|lia]);
    match goal with
    | |- context [strtol ?a] => destruct (strtol a) as [v endptr]
    end;
    destruct (negb (streq endptr "") || (to_int v <? 0) || (255 <? to_int v))
      eqn:E; intros H; inversion H; subst;
    apply orb_false_elim in E; destruct E as [E E2];
    apply orb_false_elim in E; destruct E as [_ E1];
    apply Z.ltb_ge in E1, E2; right; (split; [reflexivity|lia]).
Qed.

(** X3. When the argument is accepted nothing has been written, the
    override flag is set exactly by the tokens [FORCEGET] and [FORCESET:],
    and the value is either -1 with no save flag, when no value was given, or
    a byte 0..255. *)
Theorem accepted_argument (argv : list string) (t : list event)
    (force save : bool) (new : Z) :
  process_argument argv = (t, inr (force, save, new)) ->
  t = []
  /\ force = force_requested argv
  /\ ((no_value_requested argv = true /\ new = -1 /\ save = false)
      \/ (no_value_requested argv = false /\ 0 <= new <= 255)).
Proof.
  intros H. split; [exact (process_argument_quiet _ _ _ H)|].
  split; [exact (process_argument_force _ _ _ _ _ H)|].
  exact (process_argument_range _ _ _ _ _ H).
Qed.

Lemma accepted_argument_witness :
  process_argument ["wdled"; "/dev/sdb"; "FORCESET:Save:0377"]%string
  = ([], inr (true, true, 255))
  /\ true = force_requested ["wdled"; "/dev/sdb"; "FORCESET:Save:0377"]%string
  /\ ((no_value_requested ["wdled"; "/dev/sdb"; "FORCESET:Save:0377"]%string
       = true /\ 255 = -1 /\ true = false)
      \/ (no_value_requested ["wdled"; "/dev/sdb"; "FORCESET:Save:0377"]%string
          = false /\ 0 <= 255 <= 255)).
Proof.
  assert (H : process_argument ["wdled"; "/dev/sdb"; "FORCESET:Save:0377"]%string
              = ([], inr (true, true, 255))) by reflexivity.
  split; [exact H|].
  exact (proj2 (accepted_argument _ _ _ _ _ H)).
Defined.

(** X4. The prefixes only set flags.  If a string is accepted as a plain
    value [n], then with [save:] (in any letter case) in front it gives the
    same value with the save flag, with [FORCESET:] in front the same value
    with the override, and with [FORCESET:save:] both. *)
Theorem prefixes_only_set_flags (prog device v : string) (n : Z) :
  process_argument [prog; device; v] = ([], inr (false, false, n)) ->
  0 <= n ->
  process_argument [prog; device; ("save:" ++ v)%string]
  = ([], inr (false, true, n))
  /\ process_argument [prog; device; ("SAVE:" ++ v)%string]
     = ([], inr (false, true, n))
  /\ process_argument [prog; device; ("FORCESET:" ++ v)%string]
     = ([], inr (true, false, n))
  /\ process_argument [prog; device; ("FORCESET:save:" ++ v)%string]
     = ([], inr (true, true, n)).
Proof.
  unfold process_argument.
  cbn [List.length argv_at nth].
  change (2 <? Z.of_nat 3) with true. cbv iota.
  change (String.length "FORCESET:") with 9%nat.
  change (String.length "save:") with 5%nat.
  destruct (streq v "FORCEGET") eqn:E1;
    [intros H; inversion H; lia|].
  destruct (strneq 9 v "FORCESET:") eqn:E2.
  { destruct (strncaseeq 5 (str_advance 9 v) "save:");
      repeat match goal with
             | |- context [if streq ?a ?b then _ else _] => destruct (streq a b)
             end;
      try solve [intros H; inversion H];
      match goal with
      | |- context [strtol ?a] => destruct (strtol a) as [w endptr]
      end;
      destruct (negb (streq endptr "") || (to_int w <? 0) || (255 <? to_int w));
      intros H; inversion H. }
  destruct (strncaseeq 5 v "save:") eqn:E3.
  { repeat match goal with
           | |- context [if streq ?a ?b then _ else _] => destruct (streq a b)
           end;
      try solve [intros H; inversion H];
      match goal with
      | |- context [strtol ?a] => destruct (strtol a) as [w endptr]
      end;
      destruct (negb (streq endptr "") || (to_int w <? 0) || (255 <? to_int w));
      intros H; inversion H. }
  intros H _.
  assert (Hs : forall force save : bool,
             (if streq v "off" then ret (force, save, 0)
              else if streq v "on" then ret (force, save, 255)
              else let '(w, endptr) := strtol v in
                   if negb (streq endptr "") || (to_int w <? 0)
                      || (255 <? to_int w)
                   then bind (eprintf ("Unknown value: " ++ v ++ nl))
                          (fun _ => return_1 (InvalidRequestedValue v))
                   else ret (force, save, to_int w))
             = (([], inr (force, save, n)) : M (bool * bool * Z))).
  { intros force save. revert H.
    destruct (streq v "off"); [intros H; inversion H; reflexivity|].
    destruct (streq v "on"); [intros H; inversion H; reflexivity|].
    destruct (strtol v) as [w endptr].
    destruct (negb (streq endptr "") || (to_int w <? 0) || (255 <? to_int w));
      intros H; inversion H; reflexivity. }
  split; [|split; [|split]].
  - replace (streq ("save:" ++ v) "FORCEGET") with false by reflexivity.
    replace (strneq 9 ("save:" ++ v) "FORCESET:") with false by reflexivity.
    replace (strncaseeq 5 ("save:" ++ v) "save:") with true by reflexivity.
    replace (str_advance 5 ("save:" ++ v)) with v by reflexivity.
    apply Hs.
  - replace (streq ("SAVE:" ++ v) "FORCEGET") with false by reflexivity.
    replace (strneq 9 ("SAVE:" ++ v) "FORCESET:") with false by reflexivity.
    replace (strncaseeq 5 ("SAVE:" ++ v) "save:") with true by reflexivity.
    replace (str_advance 5 ("SAVE:" ++ v)) with v by reflexivity.
    apply Hs.
  - replace (streq ("FORCESET:" ++ v) "FORCEGET") with false by reflexivity.
    replace (strneq 9 ("FORCESET:" ++ v) "FORCESET:") with true by reflexivity.
    replace (str_advance 9 ("FORCESET:" ++ v)) with v by reflexivity.
    cbv iota. rewrite E3. apply Hs.
  - replace (streq ("FORCESET:save:" ++ v) "FORCEGET") with false
      by reflexivity.
    replace (strneq 9 ("FORCESET:save:" ++ v) "FORCESET:") with true
      by reflexivity.
    replace (str_advance 9 ("FORCESET:save:" ++ v)) with ("save:" ++ v)%string
      by reflexivity.
    cbv iota.
    replace (strncaseeq 5 ("save:" ++ v) "save:") with true by reflexivity.
    replace (str_advance 5 ("save:" ++ v)) with v by reflexivity.
    apply Hs.
Qed.

Lemma prefixes_only_set_flags_witness :
  process_argument ["wdled"; "/dev/sdb"; "0x10"]%string
  = ([], inr (false, false, 16))
  /\ 0 <= 16
  /\ process_argument ["wdled"; "/dev/sdb"; "FORCESET:save:0x10"]%string
     = ([], inr (true, true, 16)).
Proof.
  assert (H : process_argument ["wdled"; "/dev/sdb"; "0x10"]%string
              = ([], inr (false, false, 16))) by reflexivity.
  assert (Hn : 0 <= 16) by lia.
  split; [exact H|]. split; [exact Hn|].
  exact (proj2 (proj2 (proj2
           (prefixes_only_set_flags "wdled" "/dev/sdb" "0x10" 16 H Hn)))).
Defined.

(** X5. The tokens have one spelling and one order: [save:] before
    [FORCESET:], a lower-case [forceset:] or [forceget], and [FORCEGET]
    followed by anything are refused as unknown values, whatever follows. *)
Theorem misplaced_tokens_refused (prog device v : string) (c : ascii) :
  snd (process_argument [prog; device; ("save:FORCESET:" ++ v)%string])
  = inl (InvalidRequestedValue ("FORCESET:" ++ v))
  /\ snd (process_argument [prog; device; ("forceset:" ++ v)%string])
     = inl (InvalidRequestedValue ("forceset:" ++ v))
  /\ snd (process_argument [prog; device; ("forceget" ++ v)%string])
     = inl (InvalidRequestedValue ("forceget" ++ v))
  /\ snd (process_argument [prog; device; ("FORCEGET" ++ String c v)%string])
     = inl (InvalidRequestedValue ("FORCEGET" ++ String c v)).
Proof. repeat split; reflexivity. Qed.

(** The parse does not look at the program and device names. *)
Lemma process_argument_as (a : string) (n : Z) :
  match process_argument [""; ""; a]%string with
  | ([], inr (false, false, m)) => m =? n
  | _ => false
  end = true ->
  forall prog device,
    process_argument [prog; device; a] = ([], inr (false, false, n)).
Proof.
  intros H prog device.
  change (process_argument [prog; device; a])
    with (process_argument [""; ""; a]%string).
  destruct (process_argument [""; ""; a]%string)
    as [[|ev t] [e|[[[|] [|]] m]]]; try discriminate H.
  apply Z.eqb_eq in H. subst m. reflexivity.
Qed.

(** X6. The numerals of the bytes are accepted with their value: for
    every n in 0..255, its decimal numeral and its two-digit hexadecimal
    numeral after [0x] both give the value n, without flags. *)
Theorem byte_numerals_accepted (prog device : string) (n : Z) :
  0 <= n <= 255 ->
  process_argument [prog; device; fmt_d n] = ([], inr (false, false, n))
  /\ process_argument [prog; device; ("0x" ++ fmt_02x n)%string]
     = ([], inr (false, false, n)).
Proof.
  intros Hn. assert (Hu : is_u8 n) by (unfold is_u8; lia).
  split; apply process_argument_as.
  - apply (u8_all (fun n =>
                     match process_argument [""; ""; fmt_d n]%string with
                     | ([], inr (false, false, m)) => m =? n
                     | _ => false
                     end)); [vm_compute; reflexivity|exact Hu].
  - apply (u8_all (fun n =>
                     match process_argument
                             [""; ""; ("0x" ++ fmt_02x n)]%string with
                     | ([], inr (false, false, m)) => m =? n
                     | _ => false
                     end)); [vm_compute; reflexivity|exact Hu].
Qed.

Lemma byte_numerals_accepted_witness :
  0 <= 161 <= 255
  /\ process_argument ["wdled"; "/dev/sdb"; "161"]%string
     = ([], inr (false, false, 161))
  /\ process_argument ["wdled"; "/dev/sdb"; "0xa1"]%string
     = ([], inr (false, false, 161)).
Proof.
  assert (Hn : 0 <= 161 <= 255) by lia.
  split; [exact Hn|].
  exact (byte_numerals_accepted "wdled" "/dev/sdb" 161 Hn).
Defined.

(** ** The identity check (lines 183-210) *)

Lemma scan_products_shift (products : list string) (name : string) (pid : nat) :
  scan_products products name pid = (pid + scan_products products name 0)%nat.
Proof.
  revert pid. induction products as [|p rest IH]; intros pid; cbn.
  - lia.
  - destruct (streq p name); [lia|].
    rewrite (IH (S pid)), (IH 1%nat). lia.
Qed.

(** The inner loop stops on an entry of the list exactly when the product
    is in the list. *)
Lemma scan_products_found (products : list string) (name : string) :
  (exists p, nth_error products (scan_products products name 0) = Some p)
  <-> In name products.
Proof.
  induction products as [|p rest IH]; cbn.
  - split; [intros [p H]; discriminate H|intros []].
  - destruct (streq p name) eqn:E.
    + apply String.eqb_eq in E.
      split; [intros _; left; exact E|intros _; exists p; reflexivity].
    + rewrite scan_products_shift. cbn. rewrite IH.
      apply String.eqb_neq in E. tauto.
Qed.

(** X7. A device passes the two loops of the identity check exactly when
    its vendor string is [WD] padded to eight characters and its product
    string is one of the six of [wd_products]. *)
Theorem supported_device_iff (inquiry : sg_simple_inquiry_resp) :
  supported_device inquiry = true
  <-> vendor inquiry = "WD      "%string /\ In (product inquiry) wd_products.
Proof.
  unfold supported_device, supported. cbn [scan_vendors].
  destruct (streq "WD      " (vendor inquiry)) eqn:E.
  - apply String.eqb_eq in E. cbn [nth_error].
    rewrite <- scan_products_found.
    destruct (nth_error wd_products
                (scan_products wd_products (product inquiry) 0)).
    + split; [intros _; split; [auto|eauto]|reflexivity].
    + split; [intros H; discriminate H|intros [_ [p H]]; discriminate H].
  - apply String.eqb_neq in E. cbn [nth_error].
    split; [intros H; discriminate H|intros [H _]; congruence].
Qed.

(** What the identity check does, by cases on the table and the override. *)
Lemma check_supported_cases (device : string) (force : bool)
    (inquiry : sg_simple_inquiry_resp) :
  if supported_device inquiry
  then check_supported device force inquiry = ([], inr tt)
  else if force
       then exists msg, check_supported device force inquiry
                        = ([Stderr msg], inr tt)
                        /\ skip_warning msg = true
       else exists msg what, check_supported device force inquiry
                             = ([Stderr msg], inl (UnsupportedDevice what)).
Proof.
  unfold supported_device, check_supported.
  destruct (scan_vendors supported inquiry 0) as [vid pid].
  destruct (nth_error supported vid) as [[v products]|];
    [destruct (nth_error products pid)|]; destruct force; run_red;
    try reflexivity;
    try (eexists; split; reflexivity);
    do 2 eexists; reflexivity.
Qed.

(** X8. Without the override, a device that is not in the table ends the
    run after the inquiry: the error is UnsupportedDevice, the status 1, and
    the only calls made are the open and the inquiry, so that the mode page
    is neither fetched nor written. *)
Theorem unsupported_device_stops (tr : transport) (argv : list string)
    (fd : Z) (noisy : bool) (v : Z) (inquiry : sg_simple_inquiry_resp) :
  force_requested argv = false ->
  In (SimpleInquiry fd noisy v) (trace_of (main tr argv)) ->
  sg_simple_inquiry tr fd noisy v = (0, inquiry) ->
  supported_device inquiry = false ->
  (exists what, snd (main tr argv) = inl (UnsupportedDevice what))
  /\ exit_status (main tr argv) = 1
  /\ exists d ro,
       calls (trace_of (main tr argv))
       = [OpenDevice d ro 0; SimpleInquiry fd noisy v].
Proof.
  intros Hforce Hin Hinq Hns. apply in_calls in Hin; [|reflexivity].
  pose proof (fun d f => check_supported_cases d f inquiry) as Hcs.
  rewrite Hns in Hcs.
  run_cases tr argv; revert Hin; calls_norm; cbn [In]; intros Hin;
    repeat (destruct Hin as [Hin | Hin]; try discriminate Hin);
    try contradiction; inversion Hin; subst;
    match goal with
    | H : sg_simple_inquiry _ _ _ _ = _ |- _ =>
        rewrite H in Hinq; inversion Hinq; subst
    end;
    try congruence;
    match goal with
    | H : process_argument _ = _ |- _ =>
        apply process_argument_force in H; rewrite Hforce in H; subst
    end;
    destruct (Hcs (argv_at 1 argv) false) as (msg' & what & Hc');
    match goal with
    | H : snd (check_supported _ _ _) = _ |- _ =>
        rewrite Hc' in H; cbn [snd] in H; inversion H; subst
    end.
  split; [eauto|]. split; [reflexivity|]. eauto.
Qed.

Lemma unsupported_device_stops_witness :
  force_requested ["wdled"; "/dev/sdb"; "off"]%string = false
  /\ In (SimpleInquiry 3 true 0)
       (trace_of (main (device_of unknown_disk good_set)
                    ["wdled"; "/dev/sdb"; "off"]%string))
  /\ supported_device unknown_disk = false
  /\ exit_status (main (device_of unknown_disk good_set)
                    ["wdled"; "/dev/sdb"; "off"]%string) = 1.
Proof.
  assert (Hin : In (SimpleInquiry 3 true 0)
       (trace_of (main (device_of unknown_disk good_set)
                    ["wdled"; "/dev/sdb"; "off"]%string))).
  { vm_compute. right. left. reflexivity. }
  split; [reflexivity|]. split; [exact Hin|]. split; [reflexivity|].
  exact (proj1 (proj2 (unsupported_device_stops
                         (device_of unknown_disk good_set)
                         ["wdled"; "/dev/sdb"; "off"]%string 3 true 0
                         unknown_disk eq_refl Hin eq_refl eq_refl))).
Defined.

(** ** The check of the mode page (lines 222-240) *)

Lemma rule_page_id_iff (c g o s : page) :
  rule_page_id c g o s = true
  <-> code c = 0xa1 /\ code g = 0xa1 /\ code o = 0xa1 /\ code s = 0xa1.
Proof.
  unfold rule_page_id. cbn [forallb].
  rewrite !andb_true_iff, !Z.eqb_eq. tauto.
Qed.

Lemma rule_length_iff (c g o s : page) :
  rule_length c g o s = true
  <-> len c = 10 /\ len g = 10 /\ len o = 10 /\ len s = 10.
Proof.
  unfold rule_length. cbn [forallb].
  rewrite !andb_true_iff, !Z.eqb_eq. tauto.
Qed.

(** X9. The check passes, writing nothing, exactly when the four code
    bytes are 0xA1, the four length bytes are 10, the magic byte of the
    current variant is 0x30 and the led byte of the changeable variant is
    0xFF; no other byte of the four variants is looked at. *)
Theorem verify_modepage_passes_iff (device : string) (c g o s : page) :
  verify_modepage device c g o s = ([], inr tt)
  <-> (code c = 0xa1 /\ code g = 0xa1 /\ code o = 0xa1 /\ code s = 0xa1)
      /\ (len c = 10 /\ len g = 10 /\ len o = 10 /\ len s = 10)
      /\ magic (wd21 c) = 0x30
      /\ led (wd21 g) = 0xff.
Proof.
  rewrite <- rule_page_id_iff, <- rule_length_iff.
  pose proof (verify_modepage_outcome device c g o s) as Ho.
  pose proof (verify_modepage_trace device c g o s) as Ht.
  destruct (verify_modepage device c g o s) as [t r]. cbn [fst snd] in *.
  unfold rule_magic, rule_led in Ho.
  split.
  - intros H. injection H as -> ->.
    destruct (rule_page_id c g o s), (rule_length c g o s),
      (magic (wd21 c) =? 0x30) eqn:Em, (led (wd21 g) =? 0xff) eqn:El;
      cbn [negb] in Ho; try discriminate Ho.
    apply Z.eqb_eq in Em, El. auto.
  - intros (Hid & Hlen & Hm & Hl).
    apply Z.eqb_eq in Hm, Hl. rewrite Hid, Hlen, Hm, Hl in Ho.
    cbn [negb] in Ho. rewrite Ho in Ht |- *. rewrite Ht. reflexivity.
Qed.

(** X10. The check fails with UnexpectedPageLength exactly when the four
    code bytes are 0xA1 and some length byte is not 10. *)
Theorem page_length_rule_iff (device : string) (c g o s : page) :
  (exists shown,
      snd (verify_modepage device c g o s) = inl (UnexpectedPageLength shown))
  <-> (code c = 0xa1 /\ code g = 0xa1 /\ code o = 0xa1 /\ code s = 0xa1)
      /\ (len c <> 10 \/ len g <> 10 \/ len o <> 10 \/ len s <> 10).
Proof.
  rewrite <- rule_page_id_iff, verify_modepage_outcome.
  assert (Hl : rule_length c g o s = false
               <-> len c <> 10 \/ len g <> 10 \/ len o <> 10 \/ len s <> 10).
  { unfold rule_length. cbn [forallb]. rewrite andb_true_r.
    rewrite !andb_false_iff, !Z.eqb_neq. tauto. }
  rewrite <- Hl.
  destruct (rule_page_id c g o s), (rule_length c g o s); cbn [negb].
  - split; [|intros [_ H]; discriminate H].
    intros [shown H]. exfalso.
    destruct (rule_magic c), (rule_led g); discriminate H.
  - split; [auto|eauto].
  - split; [intros [shown H]; discriminate H|intros [H _]; discriminate H].
  - split; [intros [shown H]; discriminate H|intros [H _]; discriminate H].
Qed.

(** ** The order of the calls *)

Lemma stdout_of_opened (device : string) (force : bool) (new : Z) :
  stdout_of (opened device force new) = [].
Proof. destruct force; reflexivity. Qed.

Lemma stdout_of_identified (device : string) (force : bool) (new fd : Z)
    (inquiry : sg_simple_inquiry_resp) :
  stdout_of (identified device force new fd inquiry) = [].
Proof.
  unfold identified. rewrite !stdout_of_app, stdout_of_opened.
  rewrite (proj2 (check_supported_calls device force inquiry)). reflexivity.
Qed.

Lemma in_fetching_get (device : string) (force : bool) (new fd : Z)
    (inquiry : sg_simple_inquiry_resp) :
  In (GetModePageControls fd false PAGE_CODE 0 true false sizeof_page 0)
    (fetching device force new fd inquiry).
Proof. unfold fetching. apply in_app_iff. right. left. reflexivity. Qed.

Lemma in_of_calls (ev : event) (t : list event) : In ev (calls t) -> In ev t.
Proof. unfold calls. intros H. apply filter_In in H. apply H. Qed.

(** X11. The device calls of a run, that is its calls of
    [sg_cmds_open_device], [sg_simple_inquiry], [sg_get_mode_page_controls]
    and [sg_ll_mode_select10], are a prefix of the sequence open, inquiry,
    mode sense, mode select: each is made at most once, in that order, the
    last three on the descriptor that the open returned, and a run that
    makes any of them has accepted its argument. *)
Theorem calls_in_order (tr : transport) (argv : list string) :
  exists (k : nat) (force save : bool) (new : Z) (c : page),
    let device := argv_at 1 argv in
    let fd := sg_cmds_open_device tr device (new <? 0) 0 in
    calls (trace_of (main tr argv))
    = firstn k [OpenDevice device (new <? 0) 0; SimpleInquiry fd true 0;
                GetModePageControls fd false PAGE_CODE 0 true false
                  sizeof_page 0;
                submit fd save new c]
    /\ ((0 < k)%nat -> process_argument argv = ([], inr (force, save, new))).
Proof.
  destruct (main_calls tr argv _ (main_run_complete tr argv))
    as [H0 | (force & save & new & Hpa & H)]; unfold trace_of.
  - exists 0%nat, false, false, 0, sample_current. cbv zeta.
    split; [exact H0|lia].
  - cbv zeta in H.
    destruct H as [H | [H | [H | (c & g & o & s & _ & _ & _ & H)]]].
    + exists 1%nat, force, save, new, sample_current. cbv zeta. auto.
    + exists 2%nat, force, save, new, sample_current. cbv zeta. auto.
    + exists 3%nat, force, save, new, sample_current. cbv zeta. auto.
    + exists 4%nat, force, save, new, c. cbv zeta. auto.
Qed.

(** ** Failed calls *)

(** The run of an accepted argument whose open fails. *)
Lemma main_open_failed_trace (tr : transport) (argv : list string)
    (force save : bool) (new : Z) :
  wants_usage argv = false ->
  process_argument argv = ([], inr (force, save, new)) ->
  sg_cmds_open_device tr (argv_at 1 argv) (new <? 0) 0 < 0 ->
  main tr argv
  = (opened (argv_at 1 argv) force new
     ++ [Stderr (argv_at 1 argv ++ ": ERROR: Failed to open ("
                 ++ safe_strerror tr
                      (- sg_cmds_open_device tr (argv_at 1 argv) (new <? 0) 0)
                 ++ ")" ++ nl)],
     inl (OpenFailed (sg_cmds_open_device tr (argv_at 1 argv) (new <? 0) 0))).
Proof.
  intros Hu Hpa Hneg. unfold main.
  change (_ || _ || streq (argv_at 1 argv) "-h") with (wants_usage argv).
  rewrite Hu, Hpa. run_red.
  apply Z.ltb_lt in Hneg. rewrite Hneg.
  destruct force; run_red; run_trace.
Qed.

(** X12. When the open fails, the run ends with OpenFailed and status 1
    and the open is its only device call: no inquiry, mode sense or mode
    select is attempted on the negative descriptor, and nothing is printed
    on stdout.  The run ends on the diagnostic, which shows the text that
    [safe_strerror] gives for the negated result of the open. *)
Theorem failed_open_is_last (tr : transport) (argv : list string)
    (d : string) (ro : bool) (v : Z) :
  In (OpenDevice d ro v) (trace_of (main tr argv)) ->
  sg_cmds_open_device tr d ro v < 0 ->
  calls (trace_of (main tr argv)) = [OpenDevice d ro v]
  /\ stdout_of (trace_of (main tr argv)) = []
  /\ snd (main tr argv) = inl (OpenFailed (sg_cmds_open_device tr d ro v))
  /\ exit_status (main tr argv) = 1
  /\ exists pre,
       trace_of (main tr argv)
       = pre ++ [OpenDevice d ro v;
                 Stderr (d ++ ": ERROR: Failed to open ("
                         ++ safe_strerror tr (- sg_cmds_open_device tr d ro v)
                         ++ ")" ++ nl)].
Proof.
  intros Hin Hneg. apply in_calls in Hin; [|reflexivity].
  pose proof (main_open_failed_trace tr argv) as Ht.
  run_cases tr argv; revert Hin; calls_norm; cbn [In]; intros Hin;
    repeat (destruct Hin as [Hin | Hin]; try discriminate Hin);
    try contradiction; inversion Hin; subst; try lia.
  match goal with
  | Hu : wants_usage argv = false, Hpa : process_argument argv = _ |- _ =>
      specialize (Ht _ _ _ Hu Hpa Hneg)
  end.
  injection Ht as Ht. apply app_inv_head in Ht. injection Ht as ->.
  rewrite stdout_of_app, stdout_of_opened.
  repeat (split; [reflexivity|]).
  exists (if force then [Stderr force_warning] else []).
  unfold opened. rewrite <- app_assoc. reflexivity.
Qed.

Lemma failed_open_is_last_witness :
  In (OpenDevice "/dev/sdb" false 0)
    (trace_of (main (device_answering (-13) 0 0 0 passport good_set)
                 ["wdled"; "/dev/sdb"; "on"]%string))
  /\ -13 < 0
  /\ calls (trace_of (main (device_answering (-13) 0 0 0 passport good_set)
                        ["wdled"; "/dev/sdb"; "on"]%string))
     = [OpenDevice "/dev/sdb" false 0].
Proof.
  assert (Hin : In (OpenDevice "/dev/sdb" false 0)
    (trace_of (main (device_answering (-13) 0 0 0 passport good_set)
                 ["wdled"; "/dev/sdb"; "on"]%string))).
  { vm_compute. left. reflexivity. }
  assert (Hneg : -13 < 0) by lia.
  split; [exact Hin|]. split; [exact Hneg|].
  exact (proj1 (failed_open_is_last _ _ _ _ _ Hin Hneg)).
Defined.

(** X13. When the inquiry fails, the run ends with InquiryFailed and
    status 1 after the open and the inquiry: the identity is not looked up
    and the mode page is neither fetched nor written. *)
Theorem failed_inquiry_is_last (tr : transport) (argv : list string)
    (fd : Z) (noisy : bool) (v : Z) :
  In (SimpleInquiry fd noisy v) (trace_of (main tr argv)) ->
  fst (sg_simple_inquiry tr fd noisy v) <> 0 ->
  (exists d ro,
      calls (trace_of (main tr argv))
      = [OpenDevice d ro 0; SimpleInquiry fd noisy v])
  /\ stdout_of (trace_of (main tr argv)) = []
  /\ snd (main tr argv)
     = inl (InquiryFailed (fst (sg_simple_inquiry tr fd noisy v)))
  /\ exit_status (main tr argv) = 1.
Proof.
  intros Hin Hneg. apply in_calls in Hin; [|reflexivity].
  run_cases tr argv; revert Hin; calls_norm; cbn [In]; intros Hin;
    repeat (destruct Hin as [Hin | Hin]; try discriminate Hin);
    try contradiction; inversion Hin; subst;
    match goal with
    | H : sg_simple_inquiry _ _ _ _ = _ |- _ =>
        rewrite H in Hneg |- *; cbn [fst] in Hneg |- *
    end;
    try (exfalso; apply Hneg; reflexivity).
  rewrite stdout_of_app, stdout_of_opened. split; [eauto|]. repeat split.
Qed.

Lemma failed_inquiry_is_last_witness :
  In (SimpleInquiry 3 true 0)
    (trace_of (main (device_answering 3 5 0 0 passport good_set)
                 ["wdled"; "/dev/sdb"; "on"]%string))
  /\ 5 <> 0
  /\ snd (main (device_answering 3 5 0 0 passport good_set)
            ["wdled"; "/dev/sdb"; "on"]%string)
     = inl (InquiryFailed 5).
Proof.
  assert (Hin : In (SimpleInquiry 3 true 0)
    (trace_of (main (device_answering 3 5 0 0 passport good_set)
                 ["wdled"; "/dev/sdb"; "on"]%string))).
  { vm_compute. right. left. reflexivity. }
  assert (Hneg : 5 <> 0) by lia.
  split; [exact Hin|]. split; [exact Hneg|].
  exact (proj1 (proj2 (proj2
           (failed_inquiry_is_last (device_answering 3 5 0 0 passport good_set)
              ["wdled"; "/dev/sdb"; "on"]%string 3 true 0 Hin Hneg)))).
Defined.

(** X14. When the mode sense fails, the run ends with FetchFailed and
    status 1: no LED value is printed and no mode select is made, whatever
    the four buffers hold and whatever value was requested. *)
Theorem failed_fetch_is_last (tr : transport) (argv : list string)
    (result : Z) (set : page * page * page * page) :
  fetched tr argv result set ->
  result <> 0 ->
  snd (main tr argv) = inl (FetchFailed result)
  /\ exit_status (main tr argv) = 1
  /\ stdout_of (trace_of (main tr argv)) = []
  /\ (forall ev, In ev (trace_of (main tr argv)) -> is_submit ev = false).
Proof.
  intros Hf Hres. destruct set as [[[c g] o] s].
  destruct (main_after_fetch _ _ _ _ _ _ _ Hf) as (f & sv & new & _ & H).
  cbv zeta in H. apply Z.eqb_neq in Hres. rewrite Hres in H.
  cbn [negb] in H. destruct H as (Hs & Hc & Ho).
  unfold exit_status, trace_of. rewrite Hs.
  split; [reflexivity|]. split; [reflexivity|]. split; [exact Ho|].
  apply no_submit_of_calls. rewrite Hc. apply base_no_submit.
Qed.

Lemma failed_fetch_is_last_witness :
  fetched (device_answering 3 0 5 0 passport good_set)
    ["wdled"; "/dev/sdb"; "on"]%string 5 good_set
  /\ 5 <> 0
  /\ snd (main (device_answering 3 0 5 0 passport good_set)
            ["wdled"; "/dev/sdb"; "on"]%string)
     = inl (FetchFailed 5).
Proof.
  assert (Hf : fetched (device_answering 3 0 5 0 passport good_set)
                 ["wdled"; "/dev/sdb"; "on"]%string 5 good_set).
  { exists 3, false, PAGE_CODE, 0, true, false, sizeof_page, 0.
    split; [vm_compute; do 3 right; left; reflexivity|reflexivity]. }
  assert (Hneg : 5 <> 0) by lia.
  split; [exact Hf|]. split; [exact Hneg|].
  exact (proj1 (failed_fetch_is_last _ _ _ _ Hf Hneg)).
Defined.

(** ** Success and the report *)

Lemma verify_modepage_ok_inv (device : string) (c g o s : page) :
  snd (verify_modepage device c g o s) = inr tt ->
  rule_page_id c g o s = true /\ rule_length c g o s = true
  /\ rule_magic c = true /\ rule_led g = true.
Proof.
  rewrite verify_modepage_outcome.
  destruct (rule_page_id c g o s), (rule_length c g o s), (rule_magic c),
    (rule_led g); cbn [negb]; intros H; try discriminate H; auto.
Qed.

Lemma fetched_of_fetching (tr : transport) (argv : list string)
    (force : bool) (new : Z) (inquiry : sg_simple_inquiry_resp)
    (rest : list event) (r : error + Z) (result : Z)
    (set : page * page * page * page) :
  main tr argv
  = (fetching (argv_at 1 argv) force new
       (sg_cmds_open_device tr (argv_at 1 argv) (new <? 0) 0) inquiry ++ rest,
     r) ->
  sg_get_mode_page_controls tr
    (sg_cmds_open_device tr (argv_at 1 argv) (new <? 0) 0)
    false PAGE_CODE 0 true false sizeof_page 0 = (result, set) ->
  fetched tr argv result set.
Proof.
  intros Hm Hget. unfold fetched, trace_of. rewrite Hm. cbn [fst].
  exists (sg_cmds_open_device tr (argv_at 1 argv) (new <? 0) 0), false,
    PAGE_CODE, 0, true, false, sizeof_page, 0.
  split; [|exact Hget].
  apply in_app_iff. left. apply in_fetching_get.
Qed.

(** The two ways in which a run returns 0. *)
Lemma main_success (tr : transport) (argv : list string) :
  snd (main tr argv) = inr 0 ->
  exists force save new c g o s,
    process_argument argv = ([], inr (force, save, new))
    /\ fetched tr argv 0 (c, g, o, s)
    /\ verify_modepage (argv_at 1 argv) c g o s = ([], inr tt)
    /\ stdout_of (fst (main tr argv)) = [report_line c o s]
    /\ (0 <= new ->
        let fd := sg_cmds_open_device tr (argv_at 1 argv) (new <? 0) 0 in
        In (submit fd save new c) (fst (main tr argv))
        /\ sg_ll_mode_select10 tr fd true save
             (select_buffer (build_packet c new)) packet_size true 0 = 0).
Proof.
  pose proof (main_run_complete tr argv) as R.
  remember (main tr argv) as m eqn:Em.
  destruct R; cbn [fst snd]; intros Hout; try discriminate Hout.
  - subst fd.
    exists force, save, new, current, changeable, original, saved.
    split; [assumption|].
    split; [eapply fetched_of_fetching; [symmetry; exact Em|assumption]|].
    split; [assumption|].
    split; [rewrite stdout_of_app, stdout_of_fetching; reflexivity|].
    intros Hnew. lia.
  - subst fd.
    exists force, save, new, current, changeable, original, saved.
    split; [assumption|].
    split; [eapply fetched_of_fetching; [symmetry; exact Em|assumption]|].
    split; [assumption|].
    split; [rewrite stdout_of_app, stdout_of_fetching; reflexivity|].
    intros _. cbv zeta. split; [|assumption].
    apply in_app_iff. right. right. left. reflexivity.
Qed.

(** X15. Status 0 is only returned by a run that fetched the four
    variants, found them to pass the check and printed their LED values, and
    that, if a value was requested, made a mode select that the library
    reported as successful. *)
Theorem exit_zero_means_checked (tr : transport) (argv : list string) :
  exit_status (main tr argv) = 0 ->
  exists c g o s,
    fetched tr argv 0 (c, g, o, s)
    /\ verify_modepage (argv_at 1 argv) c g o s = ([], inr tt)
    /\ stdout_of (trace_of (main tr argv)) = [report_line c o s]
    /\ (no_value_requested argv = false ->
        exists fd sp new,
          In (submit fd sp new c) (trace_of (main tr argv))
          /\ sg_ll_mode_select10 tr fd true sp
               (select_buffer (build_packet c new)) packet_size true 0 = 0).
Proof.
  unfold exit_status, trace_of. intros Hexit.
  assert (Hout : snd (main tr argv) = inr 0).
  { destruct (snd (main tr argv)) as [e|st]; [discriminate Hexit|].
    rewrite Hexit. reflexivity. }
  destruct (main_success _ _ Hout)
    as (force & save & new & c & g & o & s & Hpa & Hf & Hv & Hso & Hw).
  exists c, g, o, s. repeat (split; [assumption|]).
  intros Hnv.
  apply process_argument_no_value in Hpa. rewrite Hnv in Hpa.
  apply Z.ltb_ge in Hpa. destruct (Hw Hpa) as [Hin Hsel]. eauto.
Qed.

Lemma exit_zero_means_checked_witness :
  exit_status (main (device_of passport good_set)
                 ["wdled"; "/dev/sdb"; "save:off"]%string) = 0
  /\ exists c g o s,
       fetched (device_of passport good_set)
         ["wdled"; "/dev/sdb"; "save:off"]%string 0 (c, g, o, s)
       /\ verify_modepage "/dev/sdb" c g o s = ([], inr tt).
Proof.
  assert (H : exit_status (main (device_of passport good_set)
                 ["wdled"; "/dev/sdb"; "save:off"]%string) = 0)
    by reflexivity.
  split; [exact H|].
  destruct (exit_zero_means_checked _ _ H) as (c & g & o & s & Hf & Hv & _).
  exists c, g, o, s. split; [exact Hf|exact Hv].
Defined.

(** X16. Nothing is written to stdout except the report: a line on
    stdout is the one line of the run, and it gives the LED values of a set
    that was fetched and passed the check. *)
Theorem stdout_is_the_report (tr : transport) (argv : list string)
    (line : string) :
  In line (stdout_of (trace_of (main tr argv))) ->
  exists c g o s,
    fetched tr argv 0 (c, g, o, s)
    /\ verify_modepage (argv_at 1 argv) c g o s = ([], inr tt)
    /\ line = report_line c o s
    /\ stdout_of (trace_of (main tr argv)) = [line].
Proof.
  unfold trace_of.
  pose proof (main_run_complete tr argv) as R.
  remember (main tr argv) as m eqn:Em.
  destruct R; cbn [fst snd];
    rewrite ?stdout_of_app, ?stdout_of_fetching, ?stdout_of_identified,
      ?stdout_of_opened, ?usage_stdout; cbn [stdout_of submit app In];
    intros Hin; try contradiction.
  - match goal with
    | H : process_argument _ = (_, inl _) |- _ =>
        destruct (process_argument_error _ _ _ H) as (arg & _ & ->)
    end.
    destruct Hin.
  - destruct (verify_modepage_calls (argv_at 1 argv) current changeable
                original saved) as [_ Hs].
    match goal with
    | H : verify_modepage _ _ _ _ _ = _ |- _ => rewrite H in Hs
    end.
    cbn [fst] in Hs. rewrite Hs in Hin. destruct Hin.
  - destruct Hin as [<- | []]. subst fd.
    exists current, changeable, original, saved.
    split; [eapply fetched_of_fetching; [symmetry; exact Em|assumption]|].
    auto.
  - destruct Hin as [<- | []]. subst fd.
    exists current, changeable, original, saved.
    split; [eapply fetched_of_fetching; [symmetry; exact Em|assumption]|].
    auto.
  - destruct Hin as [<- | []]. subst fd.
    exists current, changeable, original, saved.
    split; [eapply fetched_of_fetching; [symmetry; exact Em|assumption]|].
    auto.
Qed.

Lemma stdout_is_the_report_witness :
  In (String.append "LED: current=10 original=0 saved=10" nl)
    (stdout_of (trace_of (main (device_of passport good_set)
                            ["wdled"; "/dev/sdb"; "FORCEGET"]%string)))
  /\ stdout_of (trace_of (main (device_of passport good_set)
                            ["wdled"; "/dev/sdb"; "FORCEGET"]%string))
     = [String.append "LED: current=10 original=0 saved=10" nl].
Proof.
  assert (Hin : In (String.append "LED: current=10 original=0 saved=10" nl)
    (stdout_of (trace_of (main (device_of passport good_set)
                            ["wdled"; "/dev/sdb"; "FORCEGET"]%string)))).
  { vm_compute. left. reflexivity. }
  split; [exact Hin|].
  destruct (stdout_is_the_report _ _ _ Hin) as (c & g & o & s & _ & _ & _ & H).
  exact H.
Defined.

(** ** The write (lines 245-262) *)

(** X17. Every mode select that a run makes carries the request and the
    constants of the page: the page format flag is set, the save flag is the
    one of the argument, and the buffer is eight zero bytes, the page code
    0x21 without the saveable bit, the length 10, the magic byte 0x30 and
    the other payload bytes of the fetched current variant, with the
    requested value, a byte, in place of the LED byte. *)
Theorem submit_carries_request (tr : transport) (argv : list string)
    (fd : Z) (pf sp : bool) (buf : list Z) (n : Z) (noisy : bool) (v : Z) :
  In (ModeSelect10 fd pf sp buf n noisy v) (trace_of (main tr argv)) ->
  exists force new c g o s,
    process_argument argv = ([], inr (force, sp, new))
    /\ 0 <= new <= 255
    /\ fetched tr argv 0 (c, g, o, s)
    /\ pf = true
    /\ buf = [0; 0; 0; 0; 0; 0; 0; 0; PAGE_CODE; 10; PAGE_MAGIC;
              zeros0 (wd21 c); zeros1 (wd21 c); unknown1 (wd21 c);
              zeros2 (wd21 c); zeros3 (wd21 c); new;
              zeros4 (wd21 c); zeros5 (wd21 c); zeros6 (wd21 c)].
Proof.
  intros Hin.
  destruct (main_submit_inv _ _ _ _ _ _ _ _ _ Hin)
    as (force & new & c & g & o & s & Hpa & Hnew & Hf & Hv & Hev).
  unfold submit in Hev. inversion Hev; subst.
  exists force, new, c, g, o, s.
  split; [exact Hpa|].
  assert (Hr : 0 <= new <= 255).
  { destruct (process_argument_range _ _ _ _ _ Hpa) as [(_ & E & _) | [_ E]];
      lia. }
  split; [exact Hr|]. split; [exact Hf|]. split; [reflexivity|].
  assert (Hok : snd (verify_modepage (argv_at 1 argv) c g o s) = inr tt)
    by (rewrite Hv; reflexivity).
  apply verify_modepage_ok_inv in Hok.
  destruct Hok as (Hid & Hlen & Hm & _).
  apply rule_page_id_iff in Hid. destruct Hid as (Hc & _).
  apply rule_length_iff in Hlen. destruct Hlen as (Hl & _).
  apply Z.eqb_eq in Hm.
  rewrite select_buffer_bytes. unfold wd21_mem, set_wd21_led.
  cbn [magic zeros0 zeros1 unknown1 zeros2 zeros3 led zeros4 zeros5 zeros6].
  rewrite Hc, Hl, Hm. unfold u8. rewrite (Z.mod_small new 256) by lia.
  reflexivity.
Qed.

Lemma submit_carries_request_witness :
  In (ModeSelect10 3 true true
        [0; 0; 0; 0; 0; 0; 0; 0; 0x21; 10; 0x30; 0; 0; 0; 0; 0; 0; 0; 0; 0]
        20 true 0)
     (trace_of (main (device_of passport good_set)
                  ["wdled"; "/dev/sdb"; "save:off"]%string))
  /\ exists force new,
       process_argument ["wdled"; "/dev/sdb"; "save:off"]%string
       = ([], inr (force, true, new))
       /\ 0 <= new <= 255.
Proof.
  assert (H : In (ModeSelect10 3 true true
        [0; 0; 0; 0; 0; 0; 0; 0; 0x21; 10; 0x30; 0; 0; 0; 0; 0; 0; 0; 0; 0]
        20 true 0)
     (trace_of (main (device_of passport good_set)
                  ["wdled"; "/dev/sdb"; "save:off"]%string))).
  { vm_compute. do 5 right. left. reflexivity. }
  split; [exact H|].
  destruct (submit_carries_request _ _ _ _ _ _ _ _ _ H)
    as (force & new & c & g & o & s & Hpa & Hr & _).
  exists force, new. split; [exact Hpa|exact Hr].
Defined.

(** X18. A requested value is written once the check has passed: when a
    value was given and the fetched set passes the check, the run prints
    the report, makes the mode select built from the current variant with
    the flags and value of the argument, and returns 0 if the library
    reports success and 1 otherwise. *)
Theorem requested_write_is_sent (tr : transport) (argv : list string)
    (c g o s : page) :
  no_value_requested argv = false ->
  fetched tr argv 0 (c, g, o, s) ->
  snd (verify_modepage (argv_at 1 argv) c g o s) = inr tt ->
  exists force save new,
    process_argument argv = ([], inr (force, save, new))
    /\ let fd := sg_cmds_open_device tr (argv_at 1 argv) false 0 in
       let result := sg_ll_mode_select10 tr fd true save
                       (select_buffer (build_packet c new)) packet_size
                       true 0 in
       In (submit fd save new c) (trace_of (main tr argv))
       /\ stdout_of (trace_of (main tr argv)) = [report_line c o s]
       /\ exit_status (main tr argv) = (if result =? 0 then 0 else 1).
Proof.
  intros Hnv Hf Hv.
  destruct (main_after_fetch _ _ _ _ _ _ _ Hf) as (force & save & new & Hpa & H).
  cbv zeta in H. rewrite Hv in H. cbn [negb Z.eqb] in H.
  pose proof (process_argument_no_value _ _ _ _ _ Hpa) as Hn.
  rewrite Hnv in Hn. rewrite Hn in H.
  destruct H as (Hout & Hc & Hs).
  exists force, save, new. split; [exact Hpa|]. cbv zeta.
  unfold trace_of, exit_status. rewrite Hs.
  split.
  - apply in_of_calls. rewrite Hc. apply in_app_iff. right. left. reflexivity.
  - split; [exact Hout|].
    destruct (_ =? 0); reflexivity.
Qed.

Lemma requested_write_is_sent_witness :
  no_value_requested ["wdled"; "/dev/sdb"; "on"]%string = false
  /\ fetched (device_answering 3 0 0 5 passport good_set)
       ["wdled"; "/dev/sdb"; "on"]%string 0 good_set
  /\ exit_status (main (device_answering 3 0 0 5 passport good_set)
                    ["wdled"; "/dev/sdb"; "on"]%string) = 1.
Proof.
  assert (Hf : fetched (device_answering 3 0 0 5 passport good_set)
                 ["wdled"; "/dev/sdb"; "on"]%string 0 good_set).
  { exists 3, false, PAGE_CODE, 0, true, false, sizeof_page, 0.
    split; [vm_compute; do 3 right; left; reflexivity|reflexivity]. }
  split; [reflexivity|]. split; [exact Hf|].
  destruct (requested_write_is_sent
              (device_answering 3 0 0 5 passport good_set)
              ["wdled"; "/dev/sdb"; "on"]%string _ _ _ _ eq_refl Hf eq_refl)
    as (force & save & new & _ & H).
  cbv zeta in H. destruct H as (_ & _ & H). exact H.
Defined.

(** ** The lines on stderr *)

Lemma usage_last_line (tr : transport) (argv : list string) :
  exists pre msg, fst (usage tr argv) = pre ++ [Stderr msg].
Proof.
  exists (removelast (fst (usage tr argv))),
    (String.append "  WD       My Passport 25E2" nl).
  reflexivity.
Qed.

(** X19. Every run that returns 1 has a line on stderr as its last event:
    no error is silent, and nothing is called or printed after the
    diagnostic. *)
Theorem error_ends_with_diagnostic (tr : transport) (argv : list string)
    (e : error) :
  snd (main tr argv) = inl e ->
  exists pre msg, trace_of (main tr argv) = pre ++ [Stderr msg].
Proof.
  unfold trace_of.
  pose proof (main_run_complete tr argv) as R.
  remember (main tr argv) as m eqn:Em. clear Em.
  destruct R; cbn [fst snd]; intros Hout; try discriminate Hout.
  - apply usage_last_line.
  - match goal with
    | H : process_argument _ = (_, inl _) |- _ =>
        destruct (process_argument_error _ _ _ H) as (arg & _ & ->)
    end.
    exists [], ("Unknown value: " ++ arg ++ nl)%string. reflexivity.
  - eauto.
  - exists (opened (argv_at 1 argv) force new ++ [SimpleInquiry fd true 0]), msg.
    rewrite <- app_assoc. reflexivity.
  - pose proof (check_supported_cases (argv_at 1 argv) force inquiry) as Hc.
    destruct (supported_device inquiry).
    + match goal with
      | H : snd (check_supported _ _ _) = inl _ |- _ =>
          rewrite Hc in H; discriminate H
      end.
    + destruct force.
      * destruct Hc as (w & Hc & _).
        match goal with
        | H : snd (check_supported _ _ _) = inl _ |- _ =>
            rewrite Hc in H; discriminate H
        end.
      * destruct Hc as (w & what & Hc).
        exists (opened (argv_at 1 argv) false new
                ++ [SimpleInquiry fd true 0;
                    Stderr (identity_line (argv_at 1 argv) inquiry)]), w.
        unfold identified. rewrite Hc. cbn [fst].
        rewrite <- !app_assoc. reflexivity.
  - eauto.
  - pose proof (verify_modepage_trace (argv_at 1 argv) current changeable
                  original saved) as Ht.
    match goal with
    | H : verify_modepage _ _ _ _ _ = _ |- _ => rewrite H in Ht
    end.
    cbn [fst snd] in Ht. destruct Ht as [w ->]. eauto.
  - exists (fetching (argv_at 1 argv) force new fd inquiry
            ++ [Stdout (report_line current original saved);
                submit fd save new current]), msg.
    rewrite <- app_assoc. reflexivity.
Qed.

Lemma error_ends_with_diagnostic_witness :
  snd (main (device_of passport bad_magic_set)
         ["wdled"; "/dev/sdb"]%string) = inl (UnexpectedMagic 0x31)
  /\ exists pre msg,
       trace_of (main (device_of passport bad_magic_set)
                   ["wdled"; "/dev/sdb"]%string) = pre ++ [Stderr msg].
Proof.
  assert (H : snd (main (device_of passport bad_magic_set)
                     ["wdled"; "/dev/sdb"]%string)
              = inl (UnexpectedMagic 0x31)) by reflexivity.
  split; [exact H|].
  exact (error_ends_with_diagnostic _ _ _ H).
Defined.

(** X20. After a successful inquiry the identity of the device is written
    to stderr, as the device name, the vendor, the product and the
    revision, whether or not the device is supported. *)
Theorem identity_line_printed (tr : transport) (argv : list string)
    (fd : Z) (noisy : bool) (v : Z) (inquiry : sg_simple_inquiry_resp) :
  In (SimpleInquiry fd noisy v) (trace_of (main tr argv)) ->
  sg_simple_inquiry tr fd noisy v = (0, inquiry) ->
  In (Stderr (identity_line (argv_at 1 argv) inquiry)) (trace_of (main tr argv)).
Proof.
  intros Hin Hinq. apply in_calls in Hin; [|reflexivity].
  run_cases tr argv; revert Hin; calls_norm; cbn [In]; intros Hin;
    repeat (destruct Hin as [Hin | Hin]; try discriminate Hin);
    try contradiction; inversion Hin; subst;
    match goal with
    | H : sg_simple_inquiry _ _ _ _ = _ |- _ =>
        rewrite H in Hinq; inversion Hinq; subst
    end;
    try congruence;
    unfold fetching, identified; rewrite !in_app_iff; cbn [In]; auto 8.
Qed.

Lemma identity_line_printed_witness :
  In (SimpleInquiry 3 true 0)
    (trace_of (main (device_of unknown_disk good_set)
                 ["wdled"; "/dev/sdb"]%string))
  /\ In (Stderr (String.append "/dev/sdb: Generic  Flash Disk (rev 8.07)" nl))
       (trace_of (main (device_of unknown_disk good_set)
                    ["wdled"; "/dev/sdb"]%string)).
Proof.
  assert (Hin : In (SimpleInquiry 3 true 0)
    (trace_of (main (device_of unknown_disk good_set)
                 ["wdled"; "/dev/sdb"]%string))).
  { vm_compute. right. left. reflexivity. }
  split; [exact Hin|].
  exact (identity_line_printed (device_of unknown_disk good_set)
           ["wdled"; "/dev/sdb"]%string 3 true 0 unknown_disk Hin eq_refl).
Defined.

(** X21. The open is the first event of a run but for the override
    warning: a run that opens the device starts with the warning exactly
    when the override token was given, and the open follows at once. *)
Theorem override_warns_before_open (tr : transport) (argv : list string)
    (d : string) (ro : bool) (v : Z) :
  In (OpenDevice d ro v) (trace_of (main tr argv)) ->
  exists rest,
    trace_of (main tr argv)
    = (if force_requested argv then [Stderr force_warning] else [])
      ++ OpenDevice d ro v :: rest.
Proof.
  intros Hin. apply in_calls in Hin; [|reflexivity].
  run_cases tr argv; revert Hin; calls_norm; cbn [In]; intros Hin;
    repeat (destruct Hin as [Hin | Hin]; try discriminate Hin);
    try contradiction; inversion Hin; subst;
    match goal with
    | H : process_argument _ = _ |- _ =>
        apply process_argument_force in H; rewrite <- H
    end;
    eexists; unfold fetching, identified, opened;
    rewrite <- !app_assoc; cbn [app]; reflexivity.
Qed.

Lemma override_warns_before_open_witness :
  In (OpenDevice "/dev/sdb" true 0)
    (trace_of (main (device_of passport good_set)
                 ["wdled"; "/dev/sdb"; "FORCEGET"]%string))
  /\ exists rest,
       trace_of (main (device_of passport good_set)
                   ["wdled"; "/dev/sdb"; "FORCEGET"]%string)
       = [Stderr force_warning] ++ OpenDevice "/dev/sdb" true 0 :: rest.
Proof.
  assert (Hin : In (OpenDevice "/dev/sdb" true 0)
    (trace_of (main (device_of passport good_set)
                 ["wdled"; "/dev/sdb"; "FORCEGET"]%string))).
  { vm_compute. right. left. reflexivity. }
  split; [exact Hin|].
  exact (override_warns_before_open _ _ _ _ _ Hin).
Defined.
